(** * chinshare: the signaling relay of [Server/index.ts]

    A shallow embedding of the WebSocket handlers of the rendezvous
    server ([handleMessage], [handleClose]) together with the two
    process-wide tables they work on ([rooms], [sessionData]), and the
    properties of the room lifecycle and of the routing rules.

    Conventions of the embedding.
    - A handler is a computation in the monad [M]: it threads the two
      tables, may throw (only [handleMessage] catches), and records in
      program order every operation it performs on a table, on a
      socket or on the console (the type [action]).
    - [Math.random()] is an oracle of the runtime: [Math_random rt k]
      is the numerator [r] of the [k]-th double [r / 2^53] drawn while
      one handler runs.  [generateRoomId] computes on it in IEEE
      binary64, with the operations of the Standard Library's
      [SpecFloat]: the product and the sum are each rounded to the
      nearest double, ties to even.
    - [JSON.parse] and [Number.prototype.toString(36)] are functions of
      the runtime, taken as they come.
    - The [while] loop of [create-room] runs on fuel; [Spin] is the
      outcome of a loop that did not end within it. *)

From Stdlib Require Import ZArith Lia Ascii String List SpecFloat.
From stdpp Require Import gmap strings list fin_maps pretty.
Import ListNotations.

Set Warnings "-register-all".
Local Open Scope string_scope.
Local Open Scope Z_scope.

(** ** JavaScript values carried by frames *)

Inductive value : Type :=
| VNull
| VBool (b : bool)
| VNum (mantissa exponent : Z)
| VStr (s : string)
| VArr (items : list value)
| VObj (fields : list (string * value)).

(** Own-property lookup in an object literal; first binding wins. *)
Fixpoint assoc (k : string) (fields : list (string * value)) : option value :=
  match fields with
  | [] => None
  | (k', v) :: rest => if String.eqb k' k then Some v else assoc k rest
  end.

(** [data.k] for a non-null [data]: [None] is [undefined].  None of the
    names read by the server ([type], [roomId], [to]) lives on a
    prototype, so primitives and arrays answer [undefined]. *)
Definition member (k : string) (data : value) : option value :=
  match data with
  | VObj fields => assoc k fields
  | _ => None
  end.

(** ToBoolean of [data.k]. *)
Definition truthy (v : option value) : bool :=
  match v with
  | None | Some VNull => false
  | Some (VBool b) => b
  | Some (VNum m _) => negb (m =? 0)
  | Some (VStr s) => negb (String.eqb s "")
  | Some (VArr _) | Some (VObj _) => true
  end.

(** The keys of [rooms] and of [viewers] are strings; under
    SameValueZero only a string value can hit one. *)
Definition asKey (v : option value) : option string :=
  match v with
  | Some (VStr s) => Some s
  | _ => None
  end.

(** ** Sockets, rooms, sessions *)

Definition socket := nat.

(** Elysia's wrapper around the raw Bun socket. *)
Record WS := { raw : socket }.

(** A JavaScript [Map] with string keys: insertion ordered, one entry
    per key. *)
Section JsMap.
Context {V : Type}.

Fixpoint Map_get (k : string) (m : list (string * V)) : option V :=
  match m with
  | [] => None
  | (k', v) :: rest => if String.eqb k' k then Some v else Map_get k rest
  end.

Definition Map_has (k : string) (m : list (string * V)) : bool :=
  match Map_get k m with Some _ => true | None => false end.

(** An existing key keeps its position. *)
Fixpoint Map_set (k : string) (v : V) (m : list (string * V)) : list (string * V) :=
  match m with
  | [] => [(k, v)]
  | (k', v') :: rest =>
      if String.eqb k' k then (k, v) :: rest else (k', v') :: Map_set k v rest
  end.

Definition Map_delete (k : string) (m : list (string * V)) : list (string * V) :=
  List.filter (fun kv => negb (String.eqb (fst kv) k)) m.

Definition Map_values (m : list (string * V)) : list V := List.map snd m.
End JsMap.

(** [broadcaster] always holds a socket, so the tests
    [room.broadcaster && ...] of the source never fail on it. *)
Record Room := {
  broadcaster : WS;
  viewers : list (string * WS)
}.

(** [{ role?, roomId?, id? }]; the server always writes [role] and
    [roomId], so only [id] is optional here.  A falsy [roomId] is the
    empty string. *)
Record Session := {
  role : string;
  roomId : string;
  id : option string
}.

Record Server := {
  rooms : gmap string Room;
  sessionData : gmap socket Session
}.

Definition initial : Server := {| rooms := ∅; sessionData := ∅ |}.

(** ** The runtime *)

Record Runtime := {
  (** numerator of the [k]-th [Math.random()] of the running handler *)
  Math_random : nat -> Z;
  (** [(r / 2^53).toString(36)] *)
  toString36 : Z -> string;
  (** [None] when [JSON.parse] throws *)
  JSON_parse : string -> option value;
  (** [socket.readyState] while the handler runs *)
  readyState : socket -> Z
}.

Definition OPEN : Z := 1.

(** ** Handler monad *)

Inductive exn := SyntaxError | TypeError.

Inductive action : Type :=
| Send (to : WS) (payload : value)
| ConsoleLog (msg : string)
| ConsoleWarn (msg : string)
| ConsoleError (msg : string) (e : exn)
| RoomsSet (code : string) (room : Room)
| RoomsDelete (code : string)
| ViewersSet (code viewerId : string) (ws : WS)
| ViewersDelete (code viewerId : string)
| SessionSet (key : socket) (s : Session)
| SessionDelete (key : socket).

Inductive outcome (A : Type) : Type :=
| Ret (a : A) (st : Server) (tr : list action)
| Throw (e : exn) (st : Server) (tr : list action)
| Spin.
Arguments Ret {A} a st tr.
Arguments Throw {A} e st tr.
Arguments Spin {A}.

Definition M (A : Type) : Type := Server -> outcome A.

Definition ret {A} (a : A) : M A := fun st => Ret a st [].

Definition bind {A B} (m : M A) (f : A -> M B) : M B := fun st =>
  match m st with
  | Ret a st1 tr1 =>
      match f a st1 with
      | Ret b st2 tr2 => Ret b st2 (tr1 ++ tr2)
      | Throw e st2 tr2 => Throw e st2 (tr1 ++ tr2)
      | Spin => Spin
      end
  | Throw e st1 tr1 => Throw e st1 tr1
  | Spin => Spin
  end.

Notation "x <- m ;; f" := (bind m (fun x => f))
  (at level 100, m at next level, right associativity).
Notation "m ;; f" := (bind m (fun _ => f))
  (at level 100, right associativity).

Definition throw {A} (e : exn) : M A := fun st => Throw e st [].
Definition spin {A} : M A := fun _ => Spin.

Definition try_catch (body : M unit) (handler : exn -> M unit) : M unit := fun st =>
  match body st with
  | Throw e st1 tr1 =>
      match handler e st1 with
      | Ret b st2 tr2 => Ret b st2 (tr1 ++ tr2)
      | Throw e' st2 tr2 => Throw e' st2 (tr1 ++ tr2)
      | Spin => Spin
      end
  | r => r
  end.

Definition emit (a : action) : M unit := fun st => Ret tt st [a].

Definition send (ws : WS) (payload : value) : M unit := emit (Send ws payload).
(** [log] prefixes the text with the time of day, which is left out. *)
Definition log (msg : string) : M unit := emit (ConsoleLog msg).
Definition console_warn (msg : string) : M unit := emit (ConsoleWarn msg).
Definition console_error (msg : string) (e : exn) : M unit := emit (ConsoleError msg e).

Definition rooms_get (code : option string) : M (option Room) := fun st =>
  Ret (match code with Some c => rooms st !! c | None => None end) st [].

Definition rooms_has (code : string) : M bool := fun st =>
  Ret (match rooms st !! code with Some _ => true | None => false end) st [].

Definition rooms_set (code : string) (room : Room) : M unit := fun st =>
  Ret tt {| rooms := <[code := room]> (rooms st); sessionData := sessionData st |}
      [RoomsSet code room].

Definition rooms_delete (code : string) : M unit := fun st =>
  Ret tt {| rooms := delete code (rooms st); sessionData := sessionData st |}
      [RoomsDelete code].

(** [room.viewers.set(viewerId, ws)] on the room object stored under
    [code]; the object is reachable from that key only. *)
Definition viewers_set (code viewerId : string) (ws : WS) : M unit := fun st =>
  Ret tt {| rooms := alter (fun room =>
                        {| broadcaster := broadcaster room;
                           viewers := Map_set viewerId ws (viewers room) |})
                      code (rooms st);
            sessionData := sessionData st |}
      [ViewersSet code viewerId ws].

Definition viewers_delete (code viewerId : string) : M unit := fun st =>
  Ret tt {| rooms := alter (fun room =>
                        {| broadcaster := broadcaster room;
                           viewers := Map_delete viewerId (viewers room) |})
                      code (rooms st);
            sessionData := sessionData st |}
      [ViewersDelete code viewerId].

Definition sessionData_get (key : socket) : M (option Session) := fun st =>
  Ret (sessionData st !! key) st [].

Definition sessionData_set (key : socket) (s : Session) : M unit := fun st =>
  Ret tt {| rooms := rooms st; sessionData := <[key := s]> (sessionData st) |}
      [SessionSet key s].

Definition sessionData_delete (key : socket) : M unit := fun st =>
  Ret tt {| rooms := rooms st; sessionData := delete key (sessionData st) |}
      [SessionDelete key].

Fixpoint for_each {A} (l : list A) (body : A -> M unit) : M unit :=
  match l with
  | [] => ret tt
  | x :: rest => body x ;; for_each rest body
  end.

(** ** Server-originated messages *)

Definition msg_room_created (code : string) : value :=
  VObj [("type", VStr "room-created"); ("roomId", VStr code)].
Definition msg_error : value :=
  VObj [("type", VStr "error"); ("message", VStr "Room not found")].
Definition msg_joined_room (code viewerId : string) : value :=
  VObj [("type", VStr "joined-room"); ("roomId", VStr code); ("viewerId", VStr viewerId)].
Definition msg_viewer_connect (viewerId : string) : value :=
  VObj [("type", VStr "viewer-connect"); ("id", VStr viewerId)].
Definition msg_viewer_disconnect (viewerId : string) : value :=
  VObj [("type", VStr "viewer-disconnect"); ("id", VStr viewerId)].
Definition msg_room_closed : value :=
  VObj [("type", VStr "room-closed")].

(** ** The handlers *)

(** The double nearest to [m * 2^e], ties to even: the value of a
    numeric literal, and of the draw [r / 2^53] (which is a double as
    it stands when [0 <= r < 2^53]). *)
Definition binary64 (m e : Z) : spec_float := binary_normalize 53 1024 m e false.

(** What [Math.floor] returns: a whole number, or its argument when
    that is not finite. *)
Inductive floored := Whole (n : Z) | PlusInfinity | MinusInfinity | NaN.

(** [Math.floor(x)]: the double [(-1)^s * m * 2^e] is whole when
    [0 <= e]; below that the quotient by [2^(-e)] rounds down. *)
Definition Math_floor (x : spec_float) : floored :=
  match x with
  | S754_zero _ => Whole 0
  | S754_finite s m e =>
      Whole (if 0 <=? e then cond_Zopp s (Z.pos m) * 2 ^ e
             else cond_Zopp s (Z.pos m) `div` 2 ^ (- e))
  | S754_infinity false => PlusInfinity
  | S754_infinity true => MinusInfinity
  | S754_nan => NaN
  end.

(** [.toString()] of what [Math.floor] returned.  A whole number is
    written with its decimal digits; this is the rendering of
    JavaScript for the numbers below [10^21] in size, and the draws
    [0 <= r < 2^53] stay far below (lemma [roomFloat_range]). *)
Definition Number_toString (x : floored) : string :=
  match x with
  | Whole n => pretty n
  | PlusInfinity => "Infinity"
  | MinusInfinity => "-Infinity"
  | NaN => "NaN"
  end.

(** [100000 + Math.random() * 900000] at the draw [r / 2^53]: the
    product is rounded, then the sum is. *)
Definition roomFloat (r : Z) : spec_float :=
  SFadd 53 1024 (binary64 100000 0)
        (SFmul 53 1024 (binary64 r (-53)) (binary64 900000 0)).

(** [Math.floor(100000 + Math.random() * 900000).toString()] at the
    draw [r / 2^53]. *)
Definition generateRoomId (r : Z) : string :=
  Number_toString (Math_floor (roomFloat r)).

Section Handlers.
Variable rt : Runtime.

Definition isOpen (ws : WS) : bool := readyState rt (raw ws) =? OPEN.

(** [typeof message === 'string' ? JSON.parse(message) : message] *)
Definition parsed (message : value) : option value :=
  match message with
  | VStr text => JSON_parse rt text
  | _ => Some message
  end.

(** [while (rooms.has(roomId)) roomId = generateRoomId();]
    [k] counts the draws made so far. *)
Fixpoint retry (fuel k : nat) (code : string) : M string :=
  taken <- rooms_has code ;;
  if (taken : bool) then
    match fuel with
    | O => spin
    | S fuel' => retry fuel' (S k) (generateRoomId (Math_random rt k))
    end
  else ret code.

Definition caseCreateRoom (fuel : nat) (ws : WS) : M unit :=
  code <- retry fuel 1 (generateRoomId (Math_random rt 0)) ;;
  rooms_set code {| broadcaster := ws; viewers := [] |} ;;
  sessionData_set (raw ws) {| role := "broadcaster"; roomId := code; id := None |} ;;
  log ("Room created: " ++ code) ;;
  send ws (msg_room_created code).

Definition caseJoinRoom (ws : WS) (data : value) : M unit :=
  let code := asKey (member "roomId" data) in
  room <- rooms_get code ;;
  match room, code with
  | Some room, Some code =>
      let viewerId := substring 2 9 (toString36 rt (Math_random rt 0)) in
      viewers_set code viewerId ws ;;
      sessionData_set (raw ws) {| role := "viewer"; roomId := code; id := Some viewerId |} ;;
      log ("Viewer " ++ viewerId ++ " joined room " ++ code) ;;
      send ws (msg_joined_room code viewerId) ;;
      if isOpen (broadcaster room)
      then send (broadcaster room) (msg_viewer_connect viewerId)
      else ret tt
  | _, _ => send ws msg_error
  end.

(** [room.viewers.has(data.to)] then [room.viewers.get(data.to)] *)
Definition viewerNamed (room : Room) (data : value) : option WS :=
  match asKey (member "to" data) with
  | Some to => Map_get to (viewers room)
  | None => None
  end.

Definition caseOffer (ws : WS) (data : value) : M unit :=
  sData <- sessionData_get (raw ws) ;;
  match sData with
  | None => console_warn "Offer rejected: No session data"
  | Some sData =>
      if String.eqb (roomId sData) "" then console_warn "Offer rejected: No session data"
      else
        room <- rooms_get (Some (roomId sData)) ;;
        match room with
        | Some room =>
            if truthy (member "to" data) then
              match viewerNamed room data with
              | Some viewer => send viewer data
              | None => ret tt
              end
            else ret tt
        | None => ret tt
        end
  end.

Definition caseAnswer (ws : WS) (data : value) : M unit :=
  sData <- sessionData_get (raw ws) ;;
  match sData with
  | None => ret tt
  | Some sData =>
      if String.eqb (roomId sData) "" then ret tt
      else
        room <- rooms_get (Some (roomId sData)) ;;
        match room with
        | Some room =>
            if String.eqb (role sData) "viewer" then send (broadcaster room) data
            else if String.eqb (role sData) "broadcaster" && truthy (member "to" data) then
              match viewerNamed room data with
              | Some viewer => send viewer data
              | None => ret tt
              end
            else ret tt
        | None => ret tt
        end
  end.

Definition caseCandidate (ws : WS) (data : value) : M unit :=
  sData <- sessionData_get (raw ws) ;;
  match sData with
  | None => ret tt
  | Some sData =>
      if String.eqb (roomId sData) "" then ret tt
      else
        room <- rooms_get (Some (roomId sData)) ;;
        match room with
        | None => ret tt
        | Some room =>
            if String.eqb (role sData) "broadcaster" then
              if truthy (member "to" data) then
                match viewerNamed room data with
                | Some viewer => send viewer data
                | None => ret tt
                end
              else ret tt
            else send (broadcaster room) data
        end
  end.

(** [switch (data.type)]; reading [type] off [null] throws. *)
Definition dispatch (fuel : nat) (ws : WS) (data : value) : M unit :=
  match data with
  | VNull => throw TypeError
  | _ =>
      match asKey (member "type" data) with
      | Some type =>
          if String.eqb type "create-room" then caseCreateRoom fuel ws
          else if String.eqb type "join-room" then caseJoinRoom ws data
          else if String.eqb type "offer" then caseOffer ws data
          else if String.eqb type "answer" then caseAnswer ws data
          else if String.eqb type "candidate" then caseCandidate ws data
          else ret tt
      | None => ret tt
      end
  end.

Definition handleMessage (fuel : nat) (ws : WS) (message : value) : M unit :=
  try_catch
    (match parsed message with
     | Some data => dispatch fuel ws data
     | None => throw SyntaxError
     end)
    (fun e => console_error "Error processing message:" e).

Definition handleClose (ws : WS) : M unit :=
  sData <- sessionData_get (raw ws) ;;
  match sData with
  | None => ret tt
  | Some sData =>
      sessionData_delete (raw ws) ;;
      if String.eqb (roomId sData) "" then ret tt
      else
        room <- rooms_get (Some (roomId sData)) ;;
        match room with
        | None => ret tt
        | Some room =>
            if String.eqb (role sData) "broadcaster" then
              log ("Broadcaster left room " ++ roomId sData ++ ". Destroying room.") ;;
              for_each (Map_values (viewers room)) (fun viewer =>
                if isOpen viewer then send viewer msg_room_closed else ret tt) ;;
              rooms_delete (roomId sData)
            else
              match id sData with
              | Some vid =>
                  if negb (String.eqb vid "") && Map_has vid (viewers room) then
                    viewers_delete (roomId sData) vid ;;
                    log ("Viewer " ++ vid ++ " left room " ++ roomId sData) ;;
                    if isOpen (broadcaster room)
                    then send (broadcaster room) (msg_viewer_disconnect vid)
                    else ret tt
                  else ret tt
              | None => ret tt
              end
        end
  end.
End Handlers.

(** The events Elysia hands to the [/ws] route; [open] does nothing. *)
Inductive event :=
| Message (ws : WS) (message : value)
| Close (ws : WS).

Definition conn (e : event) : WS :=
  match e with Message ws _ | Close ws => ws end.

Definition step (rt : Runtime) (fuel : nat) (e : event) : M unit :=
  match e with
  | Message ws message => handleMessage rt fuel ws message
  | Close ws => handleClose rt ws
  end.

(** What reaches the sockets, in order. *)
Fixpoint sends (tr : list action) : list (WS * value) :=
  match tr with
  | [] => []
  | Send to payload :: rest => (to, payload) :: sends rest
  | _ :: rest => sends rest
  end.

(** A run of the server: each event comes with the runtime as it is
    while its handler runs. *)
Definition run_events (fuel : nat) (es : list (Runtime * event)) : M unit :=
  for_each es (fun re => step (fst re) fuel (snd re)).

(** ** Vocabulary of the properties *)

(** A room code as the spec words it: six ASCII digits. *)
Definition is_digit (c : ascii) : bool :=
  (48 <=? nat_of_ascii c)%nat && (nat_of_ascii c <=? 57)%nat.

Definition six_digit_code (s : string) : bool :=
  (String.length s =? 6)%nat && forallb is_digit (list_ascii_of_string s).

(** The exception a frame raises before its type is known: [JSON.parse]
    rejects the text, or the frame is [null]. *)
Definition decode_failure (rt : Runtime) (message : value) : option exn :=
  match parsed rt message with
  | None => Some SyntaxError
  | Some VNull => Some TypeError
  | Some _ => None
  end.

(** The frames that bind a session in [st]: [create-room], and
    [join-room] naming a room of [st]. *)
Definition binding_request (rt : Runtime) (st : Server) (message : value) : Prop :=
  exists data,
    parsed rt message = Some data /\
    (asKey (member "type" data) = Some "create-room" \/
     (asKey (member "type" data) = Some "join-room" /\
      exists code room,
        member "roomId" data = Some (VStr code) /\ rooms st !! code = Some room)).

(** The events that reserve a room code. *)
Definition creates (rt : Runtime) (e : event) : Prop :=
  exists ws message data,
    e = Message ws message /\
    parsed rt message = Some data /\
    asKey (member "type" data) = Some "create-room".

(** ** Concrete runtimes, sockets and states used by the examples *)

Module Demo.
(** Draws 100000, 100109, ...; every draw renders as the same token
    in radix 36; only the text [null] parses; socket 9 is closed. *)
Definition rt : Runtime :=
  {| Math_random := fun k => (Z.of_nat k `mod` 8192) * 2 ^ 40;
     toString36 := fun _ => "0.x7f2q1abcdef";
     JSON_parse := fun text => if String.eqb text "null" then Some VNull else None;
     readyState := fun s => if (s =? 9)%nat then 3 else 1 |}.

Definition alice : WS := {| raw := 1%nat |}.
Definition bob : WS := {| raw := 2%nat |}.
Definition carol : WS := {| raw := 3%nat |}.
Definition gone : WS := {| raw := 9%nat |}.
Definition dave : WS := {| raw := 4%nat |}.

Definition create_room : value := VObj [("type", VStr "create-room")].
Definition join_room (code : string) : value :=
  VObj [("type", VStr "join-room"); ("roomId", VStr code)].
Definition offer_to (to : string) : value :=
  VObj [("type", VStr "offer"); ("to", VStr to); ("sdp", VStr "v=0")].

Definition broadcasting (code : string) : Session :=
  {| role := "broadcaster"; roomId := code; id := None |}.
Definition viewing (code viewerId : string) : Session :=
  {| role := "viewer"; roomId := code; id := Some viewerId |}.

(** alice broadcasts in 482913; bob, a closed socket and carol watch. *)
Definition stage : Server :=
  {| rooms :=
       {[ "482913" :=
            {| broadcaster := alice;
               viewers := [("bbbbbbbbb", bob); ("ggggggggg", gone); ("ccccccccc", carol)] |} ]};
     sessionData :=
       {[ 1%nat := broadcasting "482913";
          2%nat := viewing "482913" "bbbbbbbbb";
          9%nat := viewing "482913" "ggggggggg";
          3%nat := viewing "482913" "ccccccccc" ]} |}.

(** alice alone in 100000, the code [rt] draws first. *)
Definition lobby : Server :=
  {| rooms := {[ "100000" := {| broadcaster := alice; viewers := [] |} ]};
     sessionData := {[ 1%nat := broadcasting "100000" ]} |}.

(** [lobby] after bob joined. *)
Definition watched : Server :=
  {| rooms := {[ "100000" := {| broadcaster := alice;
                                viewers := [("x7f2q1abc", bob)] |} ]};
     sessionData := {[ 1%nat := broadcasting "100000";
                       2%nat := viewing "100000" "x7f2q1abc" ]} |}.

(** [watched] after bob asked for a room of his own. *)
Definition rebound : Server :=
  {| rooms := {[ "100000" := {| broadcaster := alice;
                                viewers := [("x7f2q1abc", bob)] |};
                 "100109" := {| broadcaster := bob; viewers := [] |} ]};
     sessionData := {[ 1%nat := broadcasting "100000";
                       2%nat := broadcasting "100109" ]} |}.


(** [lobby] after bob joined under [rt0]: his viewer id is empty. *)
Definition nameless : Server :=
  {| rooms := {[ "100000" := {| broadcaster := alice; viewers := [("", bob)] |} ]};
     sessionData := {[ 1%nat := broadcasting "100000";
                       2%nat := viewing "100000" "" ]} |}.

(** bob broadcasts in 100000, the code alice had before she left; dave
    watches. *)
Definition reopened : Server :=
  {| rooms := {[ "100000" := {| broadcaster := bob;
                                viewers := [("x7f2q1abc", dave)] |} ]};
     sessionData := {[ 2%nat := broadcasting "100000";
                       4%nat := viewing "100000" "x7f2q1abc" ]} |}.

(** [watched] after carol joined: she holds the id that was bob's. *)
Definition taken_over : Server :=
  {| rooms := {[ "100000" := {| broadcaster := alice;
                                viewers := [("x7f2q1abc", carol)] |} ]};
     sessionData := {[ 1%nat := broadcasting "100000";
                       2%nat := viewing "100000" "x7f2q1abc";
                       3%nat := viewing "100000" "x7f2q1abc" ]} |}.
End Demo.

(** ** Vocabulary of the further properties *)

(** The sockets a room holds. *)
Definition members (room : Room) : list WS :=
  broadcaster room :: Map_values (viewers room).

(** The frames the server passes on. *)
Definition relay_type (type : string) : Prop :=
  type = "offer" \/ type = "answer" \/ type = "candidate".

(** [Math.random()] answers in [0, 1). *)
Definition in_range (rt : Runtime) : Prop :=
  forall k, 0 <= Math_random rt k < 2 ^ 53.

(** Every session with role broadcaster names a room of the registry
    whose broadcaster is the socket of the session. *)
Definition broadcasters_own_rooms (st : Server) : Prop :=
  forall c s,
    sessionData st !! c = Some s -> role s = "broadcaster" ->
    exists room, rooms st !! roomId s = Some room /\ raw (broadcaster room) = c.

(** Every key of the registry and every [roomId] of a session is a
    six-digit code. *)
Definition codes_well_formed (st : Server) : Prop :=
  (forall code room, rooms st !! code = Some room -> six_digit_code code = true) /\
  (forall c s, sessionData st !! c = Some s -> six_digit_code (roomId s) = true).

(** The two shapes of session the server writes. *)
Definition session_shape (s : Session) : Prop :=
  (role s = "broadcaster" /\ id s = None) \/
  (role s = "viewer" /\ exists A, id s = Some A /\ (String.length A <= 9)%nat).

(** [data.to && room.viewers.has(data.to)], then [room.viewers.get(data.to)]:
    the viewer a frame names, if it names one. *)
Definition named_viewer (room : Room) (data : value) : option WS :=
  match asKey (member "to" data) with
  | Some to => if String.eqb to "" then None else Map_get to (viewers room)
  | None => None
  end.

(** The socket a relayed frame of the given type goes to, for a sender
    with session [s] in [room]. *)
Definition relay_target (type : string) (s : Session) (room : Room) (data : value)
  : option WS :=
  if String.eqb type "offer" then named_viewer room data
  else if String.eqb type "answer" then
    if String.eqb (role s) "viewer" then Some (broadcaster room)
    else if String.eqb (role s) "broadcaster" then named_viewer room data
    else None
  else
    if String.eqb (role s) "broadcaster" then named_viewer room data
    else Some (broadcaster room).

(** ** The uptime clock of the page ([startUptime] in [webapp/script.js]) *)

(** [s.padStart(n, c)] for a one-character [c]. *)
Definition padStart (n : nat) (c : ascii) (s : string) : string :=
  string_of_list_ascii (repeat c (n - String.length s)) ++ s.

(** The text the interval callback writes, [diff] seconds after the
    start: [Math.floor] is the floor of the quotient, [%] the remainder
    with the sign of the dividend. *)
Definition uptimeText (diff : Z) : string :=
  let h := padStart 2 "0" (pretty (diff `div` 3600)) in
  let m := padStart 2 "0" (pretty (Z.rem diff 3600 `div` 60)) in
  let s := padStart 2 "0" (pretty (Z.rem diff 60)) in
  h ++ ":" ++ m ++ ":" ++ s.

(** The two decimal digits of a number below 100. *)
Definition two_digits (n : Z) : string :=
  String (pretty_N_char (Z.to_N (n `div` 10)))
    (String (pretty_N_char (Z.to_N (n `mod` 10))) "").

(** ** Vocabulary of the facts about doubles *)

(** Values of doubles are compared as whole numbers, scaled by
    [2^256]: [SFval m e] is [m * 2^e * 2^256], for [-256 <= e]. *)
Abbreviation scale := 256 (only parsing).

Definition SFval (m e : Z) : Z := m * 2 ^ (e + scale).

(** The state of [shr] after [k] steps on [P]: the mantissa is the
    quotient, and the round or sticky bit is set only if something was
    shifted out. *)
Definition shr_inv (P k : Z) (mrs : shr_record) : Prop :=
  shr_m mrs = P `div` 2 ^ k /\ (shr_r mrs || shr_s mrs = true -> P `mod` 2 ^ k <> 0).

(** * Facts about the embedding *)

(** Split on the innermost scrutinee the goal is stuck on. *)
Ltac branch :=
  match goal with
  | |- context [match ?x with _ => _ end] =>
      lazymatch x with
      | context [match _ with _ => _ end] => fail
      | _ => destruct x eqn:?
      end
  end; simpl.

Lemma typed_is_object data type :
  asKey (member "type" data) = Some type -> exists fields, data = VObj fields.
Proof. destruct data; simpl; try discriminate. eauto. Qed.

Lemma dispatch_typed rt fuel ws data type :
  asKey (member "type" data) = Some type ->
  dispatch rt fuel ws data =
    if String.eqb type "create-room" then caseCreateRoom rt fuel ws
    else if String.eqb type "join-room" then caseJoinRoom rt ws data
    else if String.eqb type "offer" then caseOffer ws data
    else if String.eqb type "answer" then caseAnswer ws data
    else if String.eqb type "candidate" then caseCandidate ws data
    else ret tt.
Proof.
  intros Ht. destruct (typed_is_object _ _ Ht) as [fields ->].
  unfold dispatch. rewrite Ht. reflexivity.
Qed.

Section MapFacts.
Context {V : Type}.
Implicit Types (m : list (string * V)) (k : string).

Lemma Map_get_set_eq k v m : Map_get k (Map_set k v m) = Some v.
Proof.
  induction m as [|[k' v'] m IH]; simpl.
  - rewrite String.eqb_refl. reflexivity.
  - destruct (String.eqb k' k) eqn:E; simpl.
    + rewrite String.eqb_refl. reflexivity.
    + rewrite E. exact IH.
Qed.

Lemma Map_get_set_ne k k' v m : k' <> k -> Map_get k' (Map_set k v m) = Map_get k' m.
Proof.
  intros Hne. induction m as [|[k0 v0] m IH]; simpl.
  - destruct (String.eqb_spec k k'); congruence.
  - destruct (String.eqb_spec k0 k) as [->|Hk]; simpl.
    + destruct (String.eqb_spec k k'); congruence.
    + destruct (String.eqb_spec k0 k'); [reflexivity | exact IH].
Qed.


End MapFacts.

Lemma alter_as_insert (f : Room -> Room) code room (m : gmap string Room) :
  m !! code = Some room -> alter f code m = <[code := f room]> m.
Proof.
  intros Hr. apply map_eq. intros c. destruct (decide (code = c)) as [<-|Hne].
  - rewrite lookup_alter_eq, lookup_insert_eq, Hr. reflexivity.
  - rewrite lookup_alter_ne, lookup_insert_ne by done. reflexivity.
Qed.

Lemma sends_app tr1 tr2 : sends (tr1 ++ tr2) = (sends tr1 ++ sends tr2)%list.
Proof.
  induction tr1 as [|a tr1 IH]; simpl; [reflexivity|].
  destruct a; simpl; rewrite IH; reflexivity.
Qed.

Lemma sends_of_sends payload (l : list WS) :
  sends (List.map (fun viewer => Send viewer payload) l)
  = List.map (fun viewer => (viewer, payload)) l.
Proof. induction l; simpl; congruence. Qed.

(** The [for] loop of the broadcaster's close. *)
Lemma notify_open rt payload (l : list WS) st :
  for_each l (fun viewer => if isOpen rt viewer then send viewer payload else ret tt) st
  = Ret tt st (List.map (fun viewer => Send viewer payload) (List.filter (isOpen rt) l)).
Proof.
  induction l as [|v l IH]; simpl; [reflexivity|].
  unfold bind. destruct (isOpen rt v); simpl; rewrite IH; reflexivity.
Qed.

(** ** Doubles: rounding to 53 bits *)

(** The number of bits of a mantissa. *)
Lemma digits2_size p : digits2_pos p = Pos.size p.
Proof. induction p; simpl; congruence. Qed.

Lemma digits2_bounds p :
  2 ^ (Z.pos (digits2_pos p) - 1) <= Z.pos p < 2 ^ Z.pos (digits2_pos p).
Proof.
  rewrite digits2_size.
  pose proof (Pos.size_gt p) as Hgt. pose proof (Pos.size_le p) as Hle.
  apply Pos2Z.pos_lt_pos in Hgt. apply Pos2Z.pos_le_pos in Hle.
  rewrite Pos2Z.inj_pow in Hgt, Hle.
  pose proof (Pos2Z.inj_xO p) as Hx.
  assert (Hp : 2 ^ Z.pos (Pos.size p) = 2 * 2 ^ (Z.pos (Pos.size p) - 1)).
  { rewrite <- Z.pow_succ_r by lia. f_equal. lia. }
  lia.
Qed.

(** Shifting a mantissa right: [shr] divides, and remembers in the
    round and sticky bits whether anything was lost. *)
Lemma shr_1_spec m r s :
  0 <= m ->
  shr_1 {| shr_m := m; shr_r := r; shr_s := s |}
  = {| shr_m := m / 2; shr_r := Z.odd m; shr_s := r || s |}.
Proof.
  intros Hm. unfold shr_1.
  destruct m as [|[p|p|]|]; try lia.
  - reflexivity.
  - f_equal. rewrite Pos2Z.inj_xI. Z.div_mod_to_equations. lia.
  - f_equal. rewrite Pos2Z.inj_xO. Z.div_mod_to_equations. lia.
  - reflexivity.
Qed.

Lemma shr_inv_step P k mrs :
  0 <= P -> 0 <= k -> shr_inv P k mrs -> shr_inv P (k + 1) (shr_1 mrs).
Proof.
  intros HP Hk [Hm Hflags]. destruct mrs as [m r s].
  cbn [shr_m shr_r shr_s] in Hm, Hflags.
  assert (Hpow : 0 < 2 ^ k) by (apply Z.pow_pos_nonneg; lia).
  assert (Hm0 : 0 <= m) by (subst m; apply Z.div_pos; lia).
  rewrite shr_1_spec by exact Hm0. split; cbn [shr_m shr_r shr_s].
  - subst m. rewrite Z.pow_add_r by lia. rewrite Z.div_div by lia. reflexivity.
  - intros Hf Hzero.
    rewrite Z.pow_add_r in Hzero by lia. change (2 ^ 1) with 2 in Hzero.
    pose proof (Z.div_mod P (2 ^ k * 2) ltac:(lia)) as Hdm. rewrite Hzero in Hdm.
    set (c := P / (2 ^ k * 2)) in *.
    assert (HP' : P = (2 * c) * 2 ^ k) by lia.
    assert (Hmod : P mod 2 ^ k = 0) by (rewrite HP'; apply Z.mod_mul; lia).
    assert (Hdiv : m = 2 * c).
    { subst m. rewrite HP'. apply Z.div_mul. lia. }
    apply orb_true_iff in Hf. destruct Hf as [Hodd|Hrs].
    + rewrite Hdiv, Z.odd_mul in Hodd. discriminate.
    + exact (Hflags Hrs Hmod).
Qed.

Lemma shr_inv_iter P :
  0 <= P ->
  forall p k mrs, 0 <= k -> shr_inv P k mrs ->
                  shr_inv P (k + Z.pos p) (SpecFloat.iter_pos shr_1 p mrs).
Proof.
  intros HP. induction p as [p IH|p IH|]; intros k mrs Hk Hinv; simpl.
  - replace (k + Z.pos p~1) with ((k + 1 + Z.pos p) + Z.pos p) by lia.
    apply IH; [lia|]. apply IH; [lia|]. apply shr_inv_step; assumption.
  - replace (k + Z.pos p~0) with ((k + Z.pos p) + Z.pos p) by lia.
    apply IH; [lia|]. apply IH; assumption.
  - apply shr_inv_step; assumption.
Qed.

Lemma shr_exact P n :
  0 <= P -> 0 < n ->
  exists r s,
    fst (shr {| shr_m := P; shr_r := false; shr_s := false |} 0 n)
    = {| shr_m := P / 2 ^ n; shr_r := r; shr_s := s |} /\
    (r || s = true -> P mod 2 ^ n <> 0).
Proof.
  intros HP Hn. destruct n as [|p|p]; try lia. simpl.
  destruct (shr_inv_iter P HP p 0 {| shr_m := P; shr_r := false; shr_s := false |})
    as [Hm Hf].
  - lia.
  - split; simpl; [rewrite Z.div_1_r; reflexivity | discriminate].
  - destruct (SpecFloat.iter_pos shr_1 p _) as [m r s]. simpl in *.
    exists r, s. subst m. auto.
Qed.

Lemma pow2_pos k : 0 <= k -> 0 < 2 ^ k.
Proof. intros. apply Z.pow_pos_nonneg; lia. Qed.

Lemma pow2_split a b : 0 <= a -> 0 <= b -> 2 ^ (a + b) = 2 ^ a * 2 ^ b.
Proof. intros. apply Z.pow_add_r; lia. Qed.

(** Rounding to 53 bits, whatever the direction, keeps the order with
    every number of at most 53 bits. *)
Lemma faithful_lower P n q m2 e ma ea :
  0 < n -> 0 <= P -> q = P / 2 ^ n -> 2 ^ 52 <= q -> q <= m2 ->
  0 <= ma < 2 ^ 53 -> - scale <= ea -> - scale <= e ->
  SFval ma ea <= SFval P e ->
  SFval ma ea <= SFval m2 (e + n).
Proof.
  intros Hn HP Hq Hq52 Hm2 Hma Hea He Hle. unfold SFval in *.
  pose proof (pow2_pos n ltac:(lia)) as HT.
  pose proof (pow2_pos (e + scale) ltac:(lia)) as HW.
  pose proof (pow2_pos (ea + scale) ltac:(lia)) as HX.
  replace (e + n + scale) with (n + (e + scale)) by lia.
  rewrite (pow2_split n (e + scale)) by lia.
  set (T := 2 ^ n) in *. set (W := 2 ^ (e + scale)) in *. set (X := 2 ^ (ea + scale)) in *.
  pose proof (Z.div_mod P T ltac:(lia)) as Hdm.
  pose proof (Z.mod_pos_bound P T ltac:(lia)) as Hmb.
  rewrite <- Hq in Hdm.
  destruct (Z_le_gt_dec (e + n) ea) as [Hc|Hc].
  - assert (HXe : X = 2 ^ (ea - e - n) * (T * W)).
    { unfold X, T, W. rewrite <- (pow2_split n (e + scale)) by lia.
      rewrite <- (pow2_split (ea - e - n)) by lia. f_equal. lia. }
    pose proof (pow2_pos (ea - e - n) ltac:(lia)) as HU.
    set (U := 2 ^ (ea - e - n)) in *.
    rewrite HXe in Hle |- *.
    assert (HA : ma * U * T <= P) by nia.
    assert (HA' : ma * U <= q) by nia.
    nia.
  - assert (HTW : T * W = 2 ^ (e + n - ea - 1) * 2 * X).
    { unfold X, T, W. rewrite <- (pow2_split n (e + scale)) by lia.
      replace (n + (e + scale)) with ((e + n - ea - 1) + (1 + (ea + scale))) by lia.
      rewrite (pow2_split (e + n - ea - 1)) by lia.
      rewrite (pow2_split 1) by lia. change (2 ^ 1) with 2. ring. }
    pose proof (pow2_pos (e + n - ea - 1) ltac:(lia)) as HU.
    set (U := 2 ^ (e + n - ea - 1)) in *.
    replace (m2 * (T * W)) with (m2 * (U * 2 * X)) by (rewrite HTW; ring).
    change (2 ^ 53) with (2 * 2 ^ 52) in Hma.
    assert (ma <= m2 * (U * 2)) by nia.
    nia.
Qed.

Lemma faithful_upper P n q m2 e mb eb :
  0 < n -> 0 <= P -> q = P / 2 ^ n -> 2 ^ 52 <= q -> m2 <= q + 1 ->
  (P mod 2 ^ n = 0 -> m2 = q) ->
  0 <= mb < 2 ^ 53 -> - scale <= eb -> - scale <= e ->
  SFval P e <= SFval mb eb ->
  SFval m2 (e + n) <= SFval mb eb.
Proof.
  intros Hn HP Hq Hq52 Hm2 Hexact Hmb Heb He Hle. unfold SFval in *.
  pose proof (pow2_pos n ltac:(lia)) as HT.
  pose proof (pow2_pos (e + scale) ltac:(lia)) as HW.
  pose proof (pow2_pos (eb + scale) ltac:(lia)) as HX.
  replace (e + n + scale) with (n + (e + scale)) by lia.
  rewrite (pow2_split n (e + scale)) by lia.
  set (T := 2 ^ n) in *. set (W := 2 ^ (e + scale)) in *. set (X := 2 ^ (eb + scale)) in *.
  pose proof (Z.div_mod P T ltac:(lia)) as Hdm.
  pose proof (Z.mod_pos_bound P T ltac:(lia)) as Hrem.
  rewrite <- Hq in Hdm.
  destruct (Z.eq_dec (P mod T) 0) as [Hz|Hnz].
  - rewrite (Hexact Hz). rewrite Hz in Hdm.
    replace (q * (T * W)) with (P * W) by (rewrite Hdm; ring). exact Hle.
  - destruct (Z_le_gt_dec (e + n) eb) as [Hc|Hc].
    + assert (HXe : X = 2 ^ (eb - e - n) * (T * W)).
      { unfold X, T, W. rewrite <- (pow2_split n (e + scale)) by lia.
      rewrite <- (pow2_split (eb - e - n)) by lia. f_equal. lia. }
      pose proof (pow2_pos (eb - e - n) ltac:(lia)) as HU.
      set (U := 2 ^ (eb - e - n)) in *.
      rewrite HXe in Hle |- *.
      assert (HB : P <= mb * U * T) by nia.
      assert (HB' : q + 1 <= mb * U) by nia.
      nia.
    + exfalso.
      assert (HTW : T * W = 2 ^ (e + n - eb - 1) * 2 * X).
      { unfold X, T, W. rewrite <- (pow2_split n (e + scale)) by lia.
        replace (n + (e + scale)) with ((e + n - eb - 1) + (1 + (eb + scale))) by lia.
        rewrite (pow2_split (e + n - eb - 1)) by lia.
        rewrite (pow2_split 1) by lia. change (2 ^ 1) with 2. ring. }
      pose proof (pow2_pos (e + n - eb - 1) ltac:(lia)) as HU.
      set (U := 2 ^ (e + n - eb - 1)) in *.
      change (2 ^ 53) with (2 * 2 ^ 52) in Hmb.
      assert (Hlow : q * (T * W) <= P * W) by nia.
      rewrite HTW in Hlow.
      assert (2 * 2 ^ 52 * X <= q * (U * 2 * X)) by nia.
      nia.
Qed.

Lemma round_nearest_even_faithful q r s :
  let m2 := round_nearest_even q (loc_of_shr_record {| shr_m := q; shr_r := r; shr_s := s |}) in
  q <= m2 <= q + 1 /\ (r || s = false -> m2 = q).
Proof.
  destruct r, s; simpl; try (split; [lia | intros; try discriminate; reflexivity]).
  destruct (Z.even q); split; try lia; discriminate.
Qed.

Lemma digits_of_53_bits m :
  2 ^ 52 <= Z.pos m < 2 ^ 53 -> Z.pos (digits2_pos m) = 53.
Proof.
  intros Hm. pose proof (digits2_bounds m) as Hd.
  set (d := Z.pos (digits2_pos m)) in *.
  assert (d - 1 < 53).
  { apply (Z.pow_lt_mono_r_iff 2); lia. }
  assert (52 < d).
  { apply (Z.pow_lt_mono_r_iff 2); lia. }
  lia.
Qed.

(** The shift by which [binary_round_aux] brings a positive mantissa
    to 53 bits, away from the subnormal range. *)
Lemma shr_fexp_spec p e :
  let d := Z.pos (digits2_pos p) in
  -1021 <= d + e ->
  (d <= 53 ->
   shr_fexp 53 1024 (Z.pos p) e loc_Exact
   = ({| shr_m := Z.pos p; shr_r := false; shr_s := false |}, e)) /\
  (53 < d ->
   exists r s,
     shr_fexp 53 1024 (Z.pos p) e loc_Exact
     = ({| shr_m := Z.pos p / 2 ^ (d - 53); shr_r := r; shr_s := s |}, e + (d - 53)) /\
     (r || s = true -> Z.pos p mod 2 ^ (d - 53) <> 0)).
Proof.
  intros d Hrange. unfold shr_fexp, fexp, emin, Zdigits2. fold d.
  change (3 - 1024 - 53) with (-1074).
  rewrite Z.max_l by lia.
  replace (d + e - 53 - e) with (d - 53) by lia.
  split; intros Hd.
  - unfold shr. simpl shr_record_of_loc.
    destruct (d - 53) as [|n|n] eqn:E; try reflexivity. lia.
  - destruct (shr_exact (Z.pos p) (d - 53) ltac:(lia) ltac:(lia)) as (r & s & Hshr & Hf).
    exists r, s. split; [|exact Hf].
    unfold shr in *. simpl shr_record_of_loc.
    destruct (d - 53) as [|n|n] eqn:E; try lia.
    simpl in Hshr. rewrite Hshr. reflexivity.
Qed.

(** [binary_round_aux] on a positive mantissa, away from the subnormal
    range and from overflow: the result is finite, has at most 53 bits,
    and stands on the same side as the exact value of every number of
    at most 53 bits. *)
Lemma binary_round_aux_spec p e :
  let d := Z.pos (digits2_pos p) in
  -1021 <= d + e <= 1000 -> - scale <= e <= 900 ->
  exists m' e',
    binary_round_aux 53 1024 false (Z.pos p) e loc_Exact = S754_finite false m' e' /\
    e <= e' <= e + d /\
    Z.pos m' < 2 ^ 53 /\
    (forall ma ea, 0 <= ma < 2 ^ 53 -> - scale <= ea ->
                   SFval ma ea <= SFval (Z.pos p) e -> SFval ma ea <= SFval (Z.pos m') e') /\
    (forall mb eb, 0 <= mb < 2 ^ 53 -> - scale <= eb ->
                   SFval (Z.pos p) e <= SFval mb eb -> SFval (Z.pos m') e' <= SFval mb eb).
Proof.
  intros d Hrange He.
  pose proof (digits2_bounds p) as Hdb. fold d in Hdb.
  assert (Hd1 : 1 <= d) by (unfold d; lia).
  destruct (shr_fexp_spec p e ltac:(fold d; lia)) as [Hsmall Hbig]. fold d in Hsmall, Hbig.
  unfold binary_round_aux.
  destruct (Z_le_gt_dec d 53) as [Hd|Hd].
  - (* at most 53 bits: nothing is lost *)
    rewrite (Hsmall Hd). cbn [shr_m loc_of_shr_record round_nearest_even].
    rewrite (Hsmall Hd). cbn [shr_m].
    replace (e <=? 1024 - 53) with true by (symmetry; apply Z.leb_le; lia).
    exists p, e. split; [reflexivity|]. split; [lia|]. split.
    + apply Z.lt_le_trans with (2 ^ d); [lia|]. apply Z.pow_le_mono_r; lia.
    + split; intros; assumption.
  - destruct (Hbig ltac:(lia)) as (r & s & Hshr & Hflags). rewrite Hshr.
    set (n := d - 53) in *. set (q := Z.pos p / 2 ^ n) in *.
    cbn [shr_m].
    pose proof (round_nearest_even_faithful q r s) as [Hm2 Hexact].
    set (m2 := round_nearest_even q (loc_of_shr_record {| shr_m := q; shr_r := r; shr_s := s |}))
      in *.
    pose proof (pow2_pos n ltac:(lia)) as HT.
    assert (Hq : 2 ^ 52 <= q < 2 ^ 53).
    { unfold q. split.
      - apply Z.div_le_lower_bound; [lia|].
        rewrite <- pow2_split by lia. replace (n + 52) with (d - 1) by lia. lia.
      - apply Z.div_lt_upper_bound; [lia|].
        rewrite <- pow2_split by lia. replace (n + 53) with d by lia. lia. }
    assert (Hexact' : Z.pos p mod 2 ^ n = 0 -> m2 = q).
    { intros Hz. apply Hexact. destruct (r || s) eqn:E; [|reflexivity].
      exfalso. exact (Hflags eq_refl Hz). }
    assert (Hlow : forall ma ea, 0 <= ma < 2 ^ 53 -> - scale <= ea ->
                   SFval ma ea <= SFval (Z.pos p) e -> SFval ma ea <= SFval m2 (e + n)).
    { intros ma ea Hma Hea Hle.
      apply (faithful_lower (Z.pos p) n q m2 e ma ea); try lia; try reflexivity; assumption. }
    assert (Hup : forall mb eb, 0 <= mb < 2 ^ 53 -> - scale <= eb ->
                   SFval (Z.pos p) e <= SFval mb eb -> SFval m2 (e + n) <= SFval mb eb).
    { intros mb eb Hmb Heb Hle.
      apply (faithful_upper (Z.pos p) n q m2 e mb eb); try lia; try reflexivity; assumption. }
    destruct m2 as [|m2p|m2p] eqn:Em2; try lia.
    destruct (Z_lt_le_dec (Z.pos m2p) (2 ^ 53)) as [Hlt|Hge].
    + (* the rounded mantissa still has 53 bits *)
      destruct (shr_fexp_spec m2p (e + n)) as [Hs2 _].
      { rewrite (digits_of_53_bits m2p) by lia. lia. }
      rewrite Hs2 by (rewrite (digits_of_53_bits m2p) by lia; lia).
      cbn [shr_m].
      replace (e + n <=? 1024 - 53) with true by (symmetry; apply Z.leb_le; lia).
      exists m2p, (e + n). split; [reflexivity|]. split; [lia|]. split; [exact Hlt|].
      split; assumption.
    + (* it reached 2^53: one more shift, which is exact *)
      assert (Hm2p : Z.pos m2p = 2 ^ 53) by lia.
      assert (Hdig : Z.pos (digits2_pos m2p) = 54).
      { pose proof (digits2_bounds m2p) as Hb. rewrite Hm2p in Hb.
        set (d2 := Z.pos (digits2_pos m2p)) in *.
        assert (d2 - 1 < 54) by (apply (Z.pow_lt_mono_r_iff 2); lia).
        assert (53 < d2) by (apply (Z.pow_lt_mono_r_iff 2); lia).
        lia. }
      destruct (shr_fexp_spec m2p (e + n)) as [_ Hs2]; [rewrite Hdig; lia|].
      destruct (Hs2 ltac:(rewrite Hdig; lia)) as (r2 & s2 & Hshr2 & _).
      rewrite Hshr2. cbn [shr_m]. rewrite Hdig, Hm2p.
      change (2 ^ 53 / 2 ^ (54 - 53)) with (Z.pos 4503599627370496).
      replace (e + n + (54 - 53) <=? 1024 - 53) with true by (symmetry; apply Z.leb_le; lia).
      eexists _, _. split; [reflexivity|]. split; [lia|]. split; [reflexivity|].
      assert (Hsame : SFval (Z.pos 4503599627370496) (e + n + (54 - 53)) = SFval (Z.pos m2p) (e + n)).
      { unfold SFval. rewrite Hm2p.
        replace (e + n + (54 - 53) + scale) with (1 + (e + n + scale)) by lia.
        rewrite (pow2_split 1) by lia. change (2 ^ 1) with 2.
        change (2 ^ 53) with (4503599627370496 * 2). ring. }
      rewrite Hsame. split; assumption.
Qed.

Lemma iter_xO_val d m : Z.pos (Pos.iter xO m d) = Z.pos m * 2 ^ Z.pos d.
Proof.
  induction d as [|d IH] using Pos.peano_ind.
  - cbn [Pos.iter]. change (Z.pos m~0) with (2 * Z.pos m). change (2 ^ 1) with 2. ring.
  - rewrite Pos.iter_succ, Pos2Z.inj_succ, Z.pow_succ_r by lia.
    change (Z.pos (Pos.iter xO m d)~0) with (2 * Z.pos (Pos.iter xO m d)).
    rewrite IH. ring.
Qed.

Lemma iter_xO_digits d m :
  digits2_pos (Pos.iter xO m d) = (digits2_pos m + d)%positive.
Proof.
  induction d as [|d IH] using Pos.peano_ind.
  - cbn [Pos.iter digits2_pos]. rewrite Pos.add_1_r. reflexivity.
  - rewrite Pos.iter_succ. cbn [digits2_pos]. rewrite IH, Pos.add_succ_r. reflexivity.
Qed.

(** Aligning a mantissa to a smaller exponent keeps the value. *)
Lemma shl_align_spec mx ex ex' :
  - scale <= ex -> - scale <= ex' ->
  snd (shl_align mx ex ex') = Z.min ex ex' /\
  SFval (Z.pos (fst (shl_align mx ex ex'))) (snd (shl_align mx ex ex')) = SFval (Z.pos mx) ex /\
  Z.pos (digits2_pos (fst (shl_align mx ex ex'))) + snd (shl_align mx ex ex')
  = Z.pos (digits2_pos mx) + ex.
Proof.
  intros Hex Hex'. unfold shl_align.
  destruct (ex' - ex) as [|d|d] eqn:E; cbn [fst snd].
  - split; [lia|]. split; reflexivity.
  - split; [lia|]. split; reflexivity.
  - split; [lia|]. split.
    + unfold SFval. rewrite iter_xO_val.
      replace (ex + scale) with (Z.pos d + (ex' + scale)) by lia.
      rewrite (pow2_split (Z.pos d)) by lia. ring.
    + rewrite iter_xO_digits, Pos2Z.inj_add. lia.
Qed.

(** [binary_round] on a positive mantissa, away from the subnormal range
    and from overflow. *)
Lemma binary_round_spec p e :
  let d := Z.pos (digits2_pos p) in
  -1021 <= d + e <= 1000 -> -200 <= e <= 900 ->
  exists m' e',
    binary_round 53 1024 false p e = S754_finite false m' e' /\
    e - 53 <= e' <= e + d /\
    Z.pos m' < 2 ^ 53 /\
    (forall ma ea, 0 <= ma < 2 ^ 53 -> - scale <= ea ->
                   SFval ma ea <= SFval (Z.pos p) e -> SFval ma ea <= SFval (Z.pos m') e') /\
    (forall mb eb, 0 <= mb < 2 ^ 53 -> - scale <= eb ->
                   SFval (Z.pos p) e <= SFval mb eb -> SFval (Z.pos m') e' <= SFval mb eb).
Proof.
  intros d Hrange He.
  assert (Hd1 : 1 <= d) by (unfold d; lia).
  unfold binary_round, fexp, emin. fold d.
  change (3 - 1024 - 53) with (-1074).
  rewrite Z.max_l by lia.
  destruct (shl_align_spec p e (d + e - 53) ltac:(lia) ltac:(lia)) as (Hez & Hval & Hdig).
  fold d in Hdig.
  destruct (shl_align p e (d + e - 53)) as [mz ez]. cbn [fst snd] in Hez, Hval, Hdig.
  destruct (binary_round_aux_spec mz ez ltac:(lia) ltac:(lia))
    as (m' & e' & Hrun & He' & Hm' & Hlow & Hup).
  exists m', e'. split; [exact Hrun|]. split; [lia|]. split; [exact Hm'|].
  rewrite <- Hval. split; assumption.
Qed.

Lemma SFval_nonneg m e : 0 <= m -> - scale <= e -> 0 <= SFval m e.
Proof.
  intros Hm He. unfold SFval. pose proof (pow2_pos (e + scale) ltac:(lia)). nia.
Qed.

Lemma SFval_whole m : SFval m 0 = m * 2 ^ scale.
Proof. reflexivity. Qed.

Lemma digits2_upper p k : 0 <= k -> Z.pos p < 2 ^ k -> Z.pos (digits2_pos p) <= k.
Proof.
  intros Hk Hp. pose proof (digits2_bounds p) as Hb.
  set (d := Z.pos (digits2_pos p)) in *.
  assert (d - 1 < k) by (apply (Z.pow_lt_mono_r_iff 2); lia).
  lia.
Qed.

(** ** Doubles: the number under a room code *)

(** A draw [r / 2^53] with [0 < r < 2^53] is a binary64 number. *)
Lemma draw_exact r :
  0 < r < 2 ^ 53 ->
  exists m1 e1,
    binary64 r (-53) = S754_finite false m1 e1 /\
    -106 <= e1 <= 0 /\ Z.pos m1 < 2 ^ 53 /\
    SFval (Z.pos m1) e1 = SFval r (-53).
Proof.
  intros Hr. destruct r as [|p|p]; try lia.
  pose proof (digits2_upper p 53 ltac:(lia) ltac:(lia)) as Hd.
  assert (Hd1 : 1 <= Z.pos (digits2_pos p)) by lia.
  destruct (binary_round_spec p (-53) ltac:(lia) ltac:(lia))
    as (m1 & e1 & Hrun & He1 & Hm1 & Hlow & Hup).
  exists m1, e1. split; [exact Hrun|]. split; [lia|]. split; [exact Hm1|].
  apply Z.le_antisymm.
  - apply Hup; lia.
  - apply Hlow; lia.
Qed.

(** The product [Math.random() * 900000], rounded. *)
Lemma product_spec r :
  0 < r < 2 ^ 53 ->
  exists m2 e2,
    SFmul 53 1024 (binary64 r (-53)) (binary64 900000 0) = S754_finite false m2 e2 /\
    -139 <= e2 <= 73 /\ Z.pos m2 < 2 ^ 53 /\
    (forall ma ea, 0 <= ma < 2 ^ 53 -> - scale <= ea ->
                   SFval ma ea <= SFval (900000 * r) (-53) -> SFval ma ea <= SFval (Z.pos m2) e2) /\
    (forall mb eb, 0 <= mb < 2 ^ 53 -> - scale <= eb ->
                   SFval (900000 * r) (-53) <= SFval mb eb -> SFval (Z.pos m2) e2 <= SFval mb eb).
Proof.
  intros Hr. destruct (draw_exact r Hr) as (m1 & e1 & Hdraw & He1 & Hm1 & Hval).
  rewrite Hdraw.
  change (binary64 900000 0) with (S754_finite false 7730941132800000 (-33)).
  cbn [SFmul xorb].
  assert (Hprod : Z.pos (m1 * 7730941132800000) < 2 ^ 106).
  { rewrite Pos2Z.inj_mul. change (2 ^ 106) with (2 ^ 53 * 2 ^ 53).
    assert (Z.pos 7730941132800000 < 2 ^ 53) by reflexivity.
    apply Z.mul_lt_mono_nonneg; lia. }
  pose proof (digits2_upper _ 106 ltac:(lia) Hprod) as Hd.
  assert (Hd1 : 1 <= Z.pos (digits2_pos (m1 * 7730941132800000))) by lia.
  destruct (binary_round_aux_spec (m1 * 7730941132800000) (e1 + -33) ltac:(lia) ltac:(lia))
    as (m2 & e2 & Hrun & He2 & Hm2 & Hlow & Hup).
  assert (Hexact : SFval (Z.pos (m1 * 7730941132800000)) (e1 + -33) = SFval (900000 * r) (-53)).
  { unfold SFval in *. rewrite Pos2Z.inj_mul.
    change (Z.pos 7730941132800000) with (900000 * 2 ^ 33).
    replace (e1 + scale) with (33 + (e1 + -33 + scale)) in Hval by lia.
    rewrite (pow2_split 33) in Hval by lia.
    transitivity (900000 * (r * 2 ^ (-53 + scale))); [rewrite <- Hval|]; ring. }
  rewrite Hexact in Hlow, Hup.
  exists m2, e2. split; [exact Hrun|]. split; [lia|]. split; [exact Hm2|].
  split; assumption.
Qed.

(** The sum [100000 + Math.random() * 900000], rounded: it stands on
    the same side as the exact sum of every binary64 number between
    which and 100000 a binary64 number bounds the exact product. *)
Lemma roomFloat_spec r :
  0 < r < 2 ^ 53 ->
  exists m3 e3,
    roomFloat r = S754_finite false m3 e3 /\ - scale <= e3 /\
    (forall ma ea ma' ea',
        0 <= ma < 2 ^ 53 -> - scale <= ea -> 0 <= ma' < 2 ^ 53 -> - scale <= ea' ->
        SFval ma ea <= SFval (900000 * r) (-53) ->
        SFval ma' ea' <= SFval 100000 0 + SFval ma ea ->
        SFval ma' ea' <= SFval (Z.pos m3) e3) /\
    (forall mb eb mb' eb',
        0 <= mb < 2 ^ 53 -> - scale <= eb -> 0 <= mb' < 2 ^ 53 -> - scale <= eb' ->
        SFval (900000 * r) (-53) <= SFval mb eb ->
        SFval 100000 0 + SFval mb eb <= SFval mb' eb' ->
        SFval (Z.pos m3) e3 <= SFval mb' eb').
Proof.
  intros Hr. unfold roomFloat.
  destruct (product_spec r Hr) as (m2 & e2 & Hmul & He2 & Hm2 & Hlow2 & Hup2).
  rewrite Hmul.
  change (binary64 100000 0) with (S754_finite false 6871947673600000 (-36)).
  cbn [SFadd cond_Zopp].
  set (ez := Z.min (-36) e2).
  destruct (shl_align_spec 6871947673600000 (-36) ez ltac:(lia) ltac:(lia)) as (Hsa & Hva & _).
  destruct (shl_align_spec m2 e2 ez ltac:(lia) ltac:(lia)) as (Hsb & Hvb & _).
  set (a := fst (shl_align 6871947673600000 (-36) ez)) in *.
  set (b := fst (shl_align m2 e2 ez)) in *.
  replace (snd (shl_align 6871947673600000 (-36) ez)) with ez in Hva by lia.
  replace (snd (shl_align m2 e2 ez)) with ez in Hvb by lia.
  change (Z.pos a + Z.pos b) with (Z.pos (a + b)).
  cbn [binary_normalize].
  assert (Hsum : SFval (Z.pos (a + b)) ez = SFval 100000 0 + SFval (Z.pos m2) e2).
  { rewrite <- Hvb. change (SFval 100000 0) with (SFval (Z.pos 6871947673600000) (-36)).
    rewrite <- Hva. unfold SFval. rewrite Pos2Z.inj_add. ring. }
  assert (Hm2hi : SFval (Z.pos m2) e2 <= SFval 900000 0).
  { apply Hup2; try lia. unfold SFval.
    change (2 ^ (0 + scale)) with (2 ^ 53 * 2 ^ (-53 + scale)).
    assert (0 < 2 ^ (-53 + scale)) by reflexivity. nia. }
  assert (Hbits : Z.pos (a + b) < 2 ^ (20 - ez)).
  { assert (HW : 0 < 2 ^ (ez + scale)) by (apply pow2_pos; lia).
    apply (Z.mul_lt_mono_pos_r (2 ^ (ez + scale))); [exact HW|].
    rewrite <- pow2_split by lia. replace (20 - ez + (ez + scale)) with 276 by lia.
    fold (SFval (Z.pos (a + b)) ez). rewrite Hsum.
    assert (SFval 100000 0 + SFval 900000 0 < 2 ^ 276) by reflexivity. lia. }
  pose proof (digits2_upper _ (20 - ez) ltac:(lia) Hbits) as Hd.
  assert (Hd1 : 1 <= Z.pos (digits2_pos (a + b))) by lia.
  destruct (binary_round_spec (a + b) ez ltac:(lia) ltac:(lia))
    as (m3 & e3 & Hrun & He3 & Hm3 & Hlow & Hup).
  rewrite Hsum in Hlow, Hup.
  exists m3, e3. split; [exact Hrun|]. split; [lia|]. split.
  - intros ma ea ma' ea' Hma Hea Hma' Hea' Hprod Hs.
    apply Hlow; try assumption.
    pose proof (Hlow2 ma ea Hma Hea Hprod). lia.
  - intros mb eb mb' eb' Hmb Heb Hmb' Heb' Hprod Hs.
    apply Hup; try assumption.
    pose proof (Hup2 mb eb Hmb Heb Hprod). lia.
Qed.

(** [Math.floor] of a finite binary64 number is the whole number at or
    just below it. *)
Lemma Math_floor_spec m e :
  - scale <= e ->
  exists n, Math_floor (S754_finite false m e) = Whole n /\
            SFval n 0 <= SFval (Z.pos m) e < SFval (n + 1) 0.
Proof.
  intros He. cbn [Math_floor cond_Zopp]. eexists. split; [reflexivity|].
  unfold SFval. destruct (0 <=? e) eqn:E.
  - apply Z.leb_le in E.
    replace (e + scale) with (e + (0 + scale)) by lia.
    rewrite (pow2_split e) by lia.
    pose proof (pow2_pos e E). assert (0 < 2 ^ (0 + scale)) by reflexivity. nia.
  - apply Z.leb_gt in E.
    replace (0 + scale) with (- e + (e + scale)) by lia.
    rewrite (pow2_split (- e)) by lia.
    pose proof (pow2_pos (- e) ltac:(lia)) as HT.
    pose proof (pow2_pos (e + scale) ltac:(lia)) as HW.
    pose proof (Z.div_mod (Z.pos m) (2 ^ (- e)) ltac:(lia)) as Hdm.
    pose proof (Z.mod_pos_bound (Z.pos m) (2 ^ (- e)) HT) as Hmod.
    set (T := 2 ^ (- e)) in *. set (W := 2 ^ (e + scale)) in *.
    set (q := Z.pos m `div` T) in *. set (x := Z.pos m `mod` T) in *.
    split; nia.
Qed.

(** The number under the room code: every draw in [0, 1) gives a whole
    number from 100000 to 999999. *)
Lemma roomFloat_range r :
  0 <= r < 2 ^ 53 ->
  exists n, Math_floor (roomFloat r) = Whole n /\ 100000 <= n <= 999999.
Proof.
  intros Hr.
  destruct (Z.eq_dec r 0) as [->|Hr0]; [exists 100000; split; [reflexivity|lia]|].
  destruct (Z.eq_dec r (2 ^ 53 - 1)) as [->|Hr1];
    [exists 999999; split; [vm_compute; reflexivity|lia]|].
  destruct (roomFloat_spec r ltac:(lia)) as (m3 & e3 & Hrun & He3 & Hlow & Hup).
  rewrite Hrun.
  destruct (Math_floor_spec m3 e3 He3) as (n & Hfloor & Hn).
  exists n. split; [exact Hfloor|].
  assert (H1 : SFval 100000 0 <= SFval (Z.pos m3) e3).
  { apply (Hlow 0 0 100000 0); try lia.
    - unfold SFval. assert (0 < 2 ^ (-53 + scale)) by reflexivity. nia.
    - change (SFval 0 0) with 0. lia. }
  assert (H2 : SFval (Z.pos m3) e3 <= SFval 8589934591999999 (-33)).
  { apply (Hup 7730941132799999 (-33) 8589934591999999 (-33)); try lia.
    - unfold SFval. change (2 ^ 53) with 9007199254740992 in Hr, Hr1.
      change (2 ^ (-33 + scale)) with (1048576 * 2 ^ (-53 + scale)).
      assert (0 < 2 ^ (-53 + scale)) by reflexivity. nia.
    - vm_compute. discriminate. }
  assert (H3 : SFval 8589934591999999 (-33) < SFval 1000000 0) by reflexivity.
  unfold SFval in Hn, H1, H2, H3.
  assert (HW : 0 < 2 ^ (0 + scale)) by reflexivity.
  set (W := 2 ^ (0 + scale)) in *. nia.
Qed.

(** Every whole number from 100000 to 999999 is under the room code of
    some draw in (0, 1). *)
Lemma roomFloat_onto n :
  100000 <= n <= 999999 ->
  exists r, 0 < r < 2 ^ 53 /\ Math_floor (roomFloat r) = Whole n.
Proof.
  intros Hn.
  set (m := n - 100000).
  set (r := ((2 * m + 1) * 2 ^ 52 + 899999) `div` 900000).
  assert (Hr : (2 * m + 1) * 2 ^ 52 <= 900000 * r <= (2 * m + 1) * 2 ^ 52 + 899999).
  { unfold r. change (2 ^ 52) with 4503599627370496.
    Z.div_mod_to_equations. lia. }
  assert (Hr53 : 0 < r < 2 ^ 53).
  { change (2 ^ 52) with 4503599627370496 in Hr.
    change (2 ^ 53) with 9007199254740992. lia. }
  exists r. split; [exact Hr53|].
  destruct (roomFloat_spec r Hr53) as (m3 & e3 & Hrun & He3 & Hlow & Hup).
  rewrite Hrun.
  destruct (Math_floor_spec m3 e3 He3) as (n' & Hfloor & Hn').
  rewrite Hfloor. f_equal.
  assert (HW : 0 < 2 ^ (-53 + scale)) by reflexivity.
  assert (H1 : SFval (2 * n + 1) (-1) <= SFval (Z.pos m3) e3).
  { apply (Hlow (2 * m + 1) (-1) (2 * n + 1) (-1)); try lia.
    - unfold SFval. change (2 ^ (-1 + scale)) with (2 ^ 52 * 2 ^ (-53 + scale)).
      set (W := 2 ^ (-53 + scale)) in *. nia.
    - unfold SFval. change (2 ^ (0 + scale)) with (2 * 2 ^ (-1 + scale)).
      unfold m. lia. }
  assert (H2 : SFval (Z.pos m3) e3 <= SFval (4 * n + 3) (-2)).
  { apply (Hup (4 * m + 3) (-2) (4 * n + 3) (-2)); try lia.
    - unfold SFval. change (2 ^ (-2 + scale)) with (2 ^ 51 * 2 ^ (-53 + scale)).
      change (2 ^ 52) with 4503599627370496 in Hr. change (2 ^ 51) with 2251799813685248.
      set (W := 2 ^ (-53 + scale)) in *. nia.
    - unfold SFval. change (2 ^ (0 + scale)) with (4 * 2 ^ (-2 + scale)).
      unfold m. lia. }
  unfold SFval in Hn', H1, H2.
  change (2 ^ (0 + scale)) with (4 * 2 ^ (-2 + scale)) in Hn'.
  change (2 ^ (-1 + scale)) with (2 * 2 ^ (-2 + scale)) in H1.
  assert (HV : 0 < 2 ^ (-2 + scale)) by reflexivity.
  set (V := 2 ^ (-2 + scale)) in *. nia.
Qed.

(** The rounding shows in the code: at the draw 300239975158 / 2^53
    the exact sum lies below 100030, the sum of doubles is 100030. *)
Example generateRoomId_rounds :
  generateRoomId 300239975158 = "100030" /\
  100000 + (300239975158 * 900000) `div` 2 ^ 53 = 100029.
Proof. split; vm_compute; reflexivity. Qed.

(** ** Room codes *)

Lemma is_digit_pretty_N_char x : is_digit (pretty_N_char x) = true.
Proof.
  destruct x as [|p]; [reflexivity|].
  do 4 (try destruct p as [p|p|]); reflexivity.
Qed.

Lemma pretty_six_digits n :
  100000 <= n <= 999999 -> six_digit_code (pretty n) = true.
Proof.
  intros Hn. destruct n as [|p|p]; try lia.
  change (pretty (Z.pos p)) with (pretty_N_go (N.pos p) "").
  assert (Hx : (100000 <= N.pos p <= 999999)%N) by lia.
  generalize dependent (N.pos p). clear Hn. intros x Hx.
  rewrite pretty_N_go_step by lia.
  rewrite pretty_N_go_step by (apply N.div_str_pos; lia).
  do 4 (rewrite pretty_N_go_step
          by (repeat rewrite N.Div0.div_div; apply N.div_str_pos; lia)).
  match goal with
  | |- context [pretty_N_go ?y _] => replace y with 0%N
  end.
  2:{ repeat rewrite N.Div0.div_div. symmetry. apply N.div_small. lia. }
  rewrite pretty_N_go_0. unfold six_digit_code. simpl.
  rewrite !is_digit_pretty_N_char. reflexivity.
Qed.

Lemma generateRoomId_range r :
  0 <= r < 2 ^ 53 ->
  exists n, 100000 <= n <= 999999 /\ generateRoomId r = pretty n.
Proof.
  intros Hr. destruct (roomFloat_range r Hr) as (n & Hfloor & Hn).
  exists n. split; [exact Hn|].
  unfold generateRoomId. rewrite Hfloor. reflexivity.
Qed.

Lemma generateRoomId_six_digits r :
  0 <= r < 2 ^ 53 -> six_digit_code (generateRoomId r) = true.
Proof.
  intros Hr. destruct (generateRoomId_range r Hr) as (n & Hn & ->).
  apply pretty_six_digits, Hn.
Qed.

Lemma generateRoomId_nonempty r :
  0 <= r < 2 ^ 53 -> generateRoomId r <> "".
Proof.
  intros Hr E.
  pose proof (generateRoomId_six_digits r Hr) as H6.
  rewrite E in H6. discriminate.
Qed.

(** ** The retry loop *)

Lemma retry_free rt fuel k code st :
  rooms st !! code = None -> retry rt fuel k code st = Ret code st [].
Proof.
  intros Hf. destruct fuel; simpl; unfold bind, rooms_has; rewrite Hf; reflexivity.
Qed.

(** The loop ends as soon as one of the draws it reaches is unused. *)
Lemma retry_ends rt st j :
  rooms st !! generateRoomId (Math_random rt j) = None ->
  forall fuel k code, (k <= j < k + fuel)%nat ->
  exists code', retry rt fuel k code st = Ret code' st [].
Proof.
  intros Hj. induction fuel as [|fuel IH]; intros k code Hk; [lia|].
  simpl. unfold bind, rooms_has.
  destruct (rooms st !! code) eqn:Hc; simpl.
  - destruct (decide (j = k)) as [->|Hne].
    + rewrite (retry_free _ _ _ _ _ Hj). eauto.
    + destruct (IH (S k) (generateRoomId (Math_random rt k))) as [c Hret]; [lia|].
      rewrite Hret. eauto.
  - eauto.
Qed.

(** Whatever the loop returns is unused, and is the first candidate or
    one of the draws; the loop touches nothing and never throws. *)
Lemma retry_sound rt st fuel :
  forall k code,
  match retry rt fuel k code st with
  | Ret code' st' tr =>
      st' = st /\ tr = [] /\ rooms st !! code' = None /\
      (code' = code \/ exists j, code' = generateRoomId (Math_random rt j))
  | Throw _ _ _ => False
  | Spin => True
  end.
Proof.
  induction fuel as [|fuel IH]; intros k code; simpl; unfold bind, rooms_has.
  - destruct (rooms st !! code) eqn:Hc; simpl; auto.
  - destruct (rooms st !! code) eqn:Hc; simpl; auto.
    specialize (IH (S k) (generateRoomId (Math_random rt k))).
    destruct (retry rt fuel (S k) _ st) as [c st1 tr1| |]; auto.
    destruct IH as (-> & -> & Hfree & [->|Hj]). simpl.
    + repeat split; eauto.
    + repeat split; auto.
Qed.

(** ** What each case of [handleMessage] does *)

Lemma create_run rt fuel ws message data st :
  parsed rt message = Some data ->
  asKey (member "type" data) = Some "create-room" ->
  handleMessage rt fuel ws message st
  = try_catch (caseCreateRoom rt fuel ws)
      (fun e => console_error "Error processing message:" e) st.
Proof.
  intros Hp Ht. unfold handleMessage, try_catch. rewrite Hp.
  rewrite (dispatch_typed _ _ _ _ _ Ht). reflexivity.
Qed.

Lemma create_effect rt fuel ws message data st st' tr :
  parsed rt message = Some data ->
  asKey (member "type" data) = Some "create-room" ->
  handleMessage rt fuel ws message st = Ret tt st' tr ->
  exists j,
    let code := generateRoomId (Math_random rt j) in
    let room := {| broadcaster := ws; viewers := [] |} in
    let session := {| role := "broadcaster"; roomId := code; id := None |} in
    rooms st !! code = None /\
    st' = {| rooms := <[code := room]> (rooms st);
             sessionData := <[raw ws := session]> (sessionData st) |} /\
    tr = [RoomsSet code room; SessionSet (raw ws) session;
          ConsoleLog ("Room created: " ++ code); Send ws (msg_room_created code)].
Proof.
  intros Hp Ht. rewrite (create_run _ _ _ _ _ _ Hp Ht).
  unfold try_catch, caseCreateRoom, bind.
  pose proof (retry_sound rt st fuel 1 (generateRoomId (Math_random rt 0))) as Hs.
  destruct (retry rt fuel 1 _ st) as [code st1 tr1| |]; [|contradiction|discriminate].
  destruct Hs as (-> & -> & Hfree & Hcode). simpl.
  intros [= <- <-].
  assert (Hgen : exists j, code = generateRoomId (Math_random rt j)).
  { destruct Hcode as [->|?]; eauto. }
  destruct Hgen as [j ->]. exists j. simpl. auto.
Qed.

Lemma create_answered rt fuel ws message data st j :
  parsed rt message = Some data ->
  asKey (member "type" data) = Some "create-room" ->
  rooms st !! generateRoomId (Math_random rt j) = None ->
  (j <= fuel)%nat ->
  exists st' tr, handleMessage rt fuel ws message st = Ret tt st' tr.
Proof.
  intros Hp Ht Hj Hle. rewrite (create_run _ _ _ _ _ _ Hp Ht).
  unfold try_catch, caseCreateRoom, bind.
  assert (Hend : exists code, retry rt fuel 1 (generateRoomId (Math_random rt 0)) st
                              = Ret code st []).
  { destruct j as [|j].
    - rewrite (retry_free _ _ _ _ _ Hj). eauto.
    - apply (retry_ends rt st (S j) Hj). lia. }
  destruct Hend as [code ->]. simpl. eauto.
Qed.

Lemma join_missing_run rt fuel ws message data st :
  parsed rt message = Some data ->
  asKey (member "type" data) = Some "join-room" ->
  (forall code, member "roomId" data = Some (VStr code) -> rooms st !! code = None) ->
  handleMessage rt fuel ws message st = Ret tt st [Send ws msg_error].
Proof.
  intros Hp Ht Hr. unfold handleMessage, try_catch. rewrite Hp.
  rewrite (dispatch_typed _ _ _ _ _ Ht). simpl.
  unfold caseJoinRoom, bind, rooms_get.
  destruct (member "roomId" data) as [[]|] eqn:E; simpl; try reflexivity.
  rewrite (Hr _ eq_refl). reflexivity.
Qed.

Lemma join_found_run rt fuel ws message data st code room :
  parsed rt message = Some data ->
  asKey (member "type" data) = Some "join-room" ->
  member "roomId" data = Some (VStr code) ->
  rooms st !! code = Some room ->
  let viewerId := substring 2 9 (toString36 rt (Math_random rt 0)) in
  let room' := {| broadcaster := broadcaster room;
                  viewers := Map_set viewerId ws (viewers room) |} in
  let session := {| role := "viewer"; roomId := code; id := Some viewerId |} in
  handleMessage rt fuel ws message st
  = Ret tt {| rooms := <[code := room']> (rooms st);
              sessionData := <[raw ws := session]> (sessionData st) |}
        ([ViewersSet code viewerId ws;
          SessionSet (raw ws) session;
          ConsoleLog ("Viewer " ++ viewerId ++ " joined room " ++ code);
          Send ws (msg_joined_room code viewerId)]
         ++ (if readyState rt (raw (broadcaster room)) =? 1
             then [Send (broadcaster room) (msg_viewer_connect viewerId)]
             else [])).
Proof.
  intros Hp Ht Hc Hr viewerId room' session.
  unfold handleMessage, try_catch. rewrite Hp.
  rewrite (dispatch_typed _ _ _ _ _ Ht). simpl.
  unfold caseJoinRoom, bind, rooms_get. rewrite Hc. simpl. rewrite Hr.
  unfold viewers_set, sessionData_set, log, send, emit, isOpen, OPEN. simpl.
  fold viewerId. rewrite (alter_as_insert _ _ _ _ Hr). fold room'.
  destruct (readyState rt (raw (broadcaster room)) =? 1); reflexivity.
Qed.

Lemma join_cases data st :
  (exists code room,
      member "roomId" data = Some (VStr code) /\ rooms st !! code = Some room) \/
  (forall code, member "roomId" data = Some (VStr code) -> rooms st !! code = None).
Proof.
  destruct (member "roomId" data) as [[| | |code| |]|]; try (right; intros; discriminate).
  destruct (rooms st !! code) as [room|] eqn:E.
  - left. eauto.
  - right. intros c [= <-]. exact E.
Qed.

(** The three relay cases, and a type the [switch] does not know, read
    the tables and send; they change no table and do not throw. *)
Lemma relay_pure rt fuel ws data type st :
  asKey (member "type" data) = Some type ->
  type <> "create-room" -> type <> "join-room" ->
  exists tr, dispatch rt fuel ws data st = Ret tt st tr.
Proof.
  intros Ht Hc Hj. rewrite (dispatch_typed _ _ _ _ _ Ht).
  apply String.eqb_neq in Hc, Hj. rewrite Hc, Hj.
  unfold caseOffer, caseAnswer, caseCandidate, bind, sessionData_get, rooms_get,
    console_warn, send, emit, ret.
  repeat branch; eauto.
Qed.

(** A frame that binds nothing changes no table. *)
Lemma other_message_pure rt fuel ws message st st' tr :
  ~ binding_request rt st message ->
  handleMessage rt fuel ws message st = Ret tt st' tr ->
  st' = st.
Proof.
  intros Hnb. unfold handleMessage, try_catch.
  destruct (parsed rt message) as [data|] eqn:Hp; [|intros [= <- _]; reflexivity].
  destruct (asKey (member "type" data)) as [type|] eqn:Ht.
  - destruct (String.eqb_spec type "create-room") as [->|Hc].
    { exfalso. apply Hnb. exists data. auto. }
    destruct (String.eqb_spec type "join-room") as [->|Hj].
    { destruct (join_cases data st) as [(code & room & Hc' & Hr)|Hmiss].
      - exfalso. apply Hnb. exists data. split; [exact Hp|]. right. eauto.
      - pose proof (join_missing_run rt fuel ws message data st Hp Ht Hmiss) as Hrun.
        unfold handleMessage, try_catch in Hrun. rewrite Hp in Hrun. rewrite Hrun.
        intros [= <- _]. reflexivity. }
    destruct (relay_pure rt fuel ws data type st Ht Hc Hj) as [tr' ->].
    intros [= <- _]. reflexivity.
  - unfold dispatch. rewrite Ht.
    destruct data; simpl; intros [= <- _]; reflexivity.
Qed.

(** No exception leaves [handleMessage]. *)
Lemma handleMessage_never_throws rt fuel ws message st e st' tr :
  handleMessage rt fuel ws message st <> Throw e st' tr.
Proof.
  unfold handleMessage, try_catch.
  destruct (parsed rt message) as [data|]; [|discriminate].
  destruct data; try discriminate.
  unfold dispatch.
  destruct (asKey (member "type" (VObj fields))) as [type|] eqn:Ht; [|discriminate].
  destruct (String.eqb_spec type "create-room") as [->|Hc].
  { unfold caseCreateRoom, bind.
    pose proof (retry_sound rt st fuel 1 (generateRoomId (Math_random rt 0))) as Hs.
    destruct (retry rt fuel 1 _ st); [discriminate|contradiction|discriminate]. }
  destruct (String.eqb_spec type "join-room") as [->|Hj].
  { unfold caseJoinRoom, bind, rooms_get, send, emit, ret.
    repeat branch; discriminate. }
  destruct (relay_pure rt fuel ws (VObj fields) type st Ht Hc Hj) as [tr' Hr].
  unfold dispatch in Hr. rewrite Ht in Hr.
  apply String.eqb_neq in Hc, Hj. rewrite Hc, Hj in Hr. rewrite Hr. discriminate.
Qed.

(** The three ways a frame can leave the tables. *)
Lemma handleMessage_cases rt fuel ws message st st' tr :
  handleMessage rt fuel ws message st = Ret tt st' tr ->
  st' = st \/
  (exists j room session,
      creates rt (Message ws message) /\
      rooms st !! generateRoomId (Math_random rt j) = None /\
      st' = {| rooms := <[generateRoomId (Math_random rt j) := room]> (rooms st);
               sessionData := <[raw ws := session]> (sessionData st) |}) \/
  (exists code room room' session,
      rooms st !! code = Some room /\
      st' = {| rooms := <[code := room']> (rooms st);
               sessionData := <[raw ws := session]> (sessionData st) |}).
Proof.
  intros Hrun.
  destruct (parsed rt message) as [data|] eqn:Hp.
  2:{ left. apply (other_message_pure rt fuel ws message st st' tr); [|exact Hrun].
      intros (data & Hd & _). congruence. }
  destruct (asKey (member "type" data)) as [type|] eqn:Ht.
  2:{ left. apply (other_message_pure rt fuel ws message st st' tr); [|exact Hrun].
      intros (d & Hd & [Hc|[Hj _]]); congruence. }
  destruct (String.eqb_spec type "create-room") as [->|Hc].
  { right; left.
    destruct (create_effect _ _ _ _ _ _ _ _ Hp Ht Hrun) as (j & Hfree & -> & _).
    exists j. eexists _, _. split; [|split; [exact Hfree | reflexivity]].
    exists ws, message, data. auto. }
  destruct (String.eqb_spec type "join-room") as [->|Hj].
  { destruct (join_cases data st) as [(code & room & Hc' & Hr)|Hmiss].
    - right; right.
      pose proof (join_found_run rt fuel ws message data st code room Hp Ht Hc' Hr) as Hf.
      simpl in Hf. rewrite Hf in Hrun. injection Hrun as <- _. eauto 8.
    - left. rewrite (join_missing_run rt fuel ws message data st Hp Ht Hmiss) in Hrun.
      injection Hrun as <- _. reflexivity. }
  left. apply (other_message_pure rt fuel ws message st st' tr); [|exact Hrun].
  intros (d & Hd & [Hc'|[Hj' _]]); congruence.
Qed.

(** ** What [handleClose] does to the tables *)

Lemma handleClose_cases rt ws st :
  exists st' tr,
    handleClose rt ws st = Ret tt st' tr /\
    sessionData st' = delete (raw ws) (sessionData st) /\
    (rooms st' = rooms st \/
     (exists code, rooms st' = delete code (rooms st)) \/
     (exists code room room',
         rooms st !! code = Some room /\ rooms st' = <[code := room']> (rooms st))).
Proof.
  unfold handleClose, bind, sessionData_get, sessionData_delete, rooms_get.
  destruct (sessionData st !! raw ws) as [s|] eqn:Hs; simpl.
  2:{ eexists _, _. split; [reflexivity|]. split; [|auto].
      symmetry. apply delete_id. exact Hs. }
  destruct (String.eqb (roomId s) ""); simpl.
  { eexists _, _. split; [reflexivity|]. simpl. auto. }
  destruct (rooms st !! roomId s) as [room|] eqn:Hroom; simpl.
  2:{ eexists _, _. split; [reflexivity|]. simpl. auto. }
  destruct (String.eqb (role s) "broadcaster"); simpl.
  { unfold log, emit. simpl. rewrite notify_open. simpl.
    eexists _, _. split; [reflexivity|]. simpl. eauto. }
  destruct (id s) as [vid|]; simpl.
  2:{ eexists _, _. split; [reflexivity|]. simpl. auto. }
  destruct (negb (String.eqb vid "") && Map_has vid (viewers room)); simpl.
  2:{ eexists _, _. split; [reflexivity|]. simpl. auto. }
  rewrite (alter_as_insert _ _ _ _ Hroom).
  destruct (isOpen rt (broadcaster room)); simpl;
    (eexists _, _; split; [reflexivity|]; simpl; eauto 8).
Qed.

(** ** No room is ever stored under the empty code *)

Lemma step_keeps_codes_nonempty rt fuel e st st' tr :
  (forall k, 0 <= Math_random rt k < 2 ^ 53) ->
  rooms st !! "" = None ->
  step rt fuel e st = Ret tt st' tr ->
  rooms st' !! "" = None.
Proof.
  intros Hrange Hempty. destruct e as [ws message|ws]; simpl.
  - intros Hrun.
    destruct (handleMessage_cases _ _ _ _ _ _ _ Hrun)
      as [->|[(j & room & session & _ & _ & ->)|(code & room & room' & session & Hr & ->)]];
      simpl; [exact Hempty| |].
    + rewrite lookup_insert_ne; [exact Hempty|].
      apply generateRoomId_nonempty, Hrange.
    + rewrite lookup_insert_ne; [exact Hempty|]. congruence.
  - destruct (handleClose_cases rt ws st) as (st1 & tr1 & -> & _ & Hrooms).
    intros [= <- _].
    destruct Hrooms as [->|[(code & ->)|(code & room & room' & Hr & ->)]].
    + exact Hempty.
    + destruct (decide (code = "")) as [->|Hne].
      * apply lookup_delete_eq.
      * rewrite lookup_delete_ne by exact Hne. exact Hempty.
    + rewrite lookup_insert_ne; [exact Hempty|]. congruence.
Qed.

Lemma run_keeps_codes_nonempty fuel es :
  Forall (fun re => forall k, 0 <= Math_random (fst re) k < 2 ^ 53) es ->
  forall st st' tr,
    rooms st !! "" = None ->
    run_events fuel es st = Ret tt st' tr ->
    rooms st' !! "" = None.
Proof.
  unfold run_events. induction 1 as [|[rt e] es Hrange _ IH]; intros st st' tr Hempty; simpl.
  - intros [= <- _]. exact Hempty.
  - unfold bind. destruct (step rt fuel e st) as [[] st1 tr1| |] eqn:Hstep; try discriminate.
    destruct (for_each es _ st1) as [[] st2 tr2| |] eqn:Hrest; try discriminate.
    intros [= <- _].
    apply (IH st1 st2 tr2); [|exact Hrest].
    apply (step_keeps_codes_nonempty rt fuel e st st1 tr1 Hrange Hempty Hstep).
Qed.

(** No state the server reaches from [initial] stores a room under the
    empty code. *)
Lemma reachable_codes_nonempty fuel es st tr :
  Forall (fun re => forall k, 0 <= Math_random (fst re) k < 2 ^ 53) es ->
  run_events fuel es initial = Ret tt st tr ->
  rooms st !! "" = None.
Proof.
  intros Hrange Hrun.
  apply (run_keeps_codes_nonempty fuel es Hrange initial st tr); [|exact Hrun].
  reflexivity.
Qed.

(** ** Only [create-room] adds a code to the registry *)

Lemma absent_room_stays rt fuel e st st' tr R :
  ~ creates rt e ->
  rooms st !! R = None ->
  step rt fuel e st = Ret tt st' tr ->
  rooms st' !! R = None.
Proof.
  intros Hnc Habs. destruct e as [ws message|ws]; simpl.
  - intros Hrun.
    destruct (handleMessage_cases _ _ _ _ _ _ _ Hrun)
      as [->|[(j & room & session & Hc & _)|(code & room & room' & session & Hr & ->)]];
      simpl; [exact Habs|contradiction|].
    rewrite lookup_insert_ne; [exact Habs|]. congruence.
  - destruct (handleClose_cases rt ws st) as (st1 & tr1 & -> & _ & Hrooms).
    intros [= <- _].
    destruct Hrooms as [->|[(code & ->)|(code & room & room' & Hr & ->)]].
    + exact Habs.
    + destruct (decide (code = R)) as [->|Hne].
      * apply lookup_delete_eq.
      * rewrite lookup_delete_ne by exact Hne. exact Habs.
    + rewrite lookup_insert_ne; [exact Habs|]. congruence.
Qed.

Lemma absent_room_stays_run fuel es R :
  Forall (fun re => ~ creates (fst re) (snd re)) es ->
  forall st st' tr,
    rooms st !! R = None ->
    run_events fuel es st = Ret tt st' tr ->
    rooms st' !! R = None.
Proof.
  unfold run_events. induction 1 as [|[rt e] es Hnc _ IH]; intros st st' tr Habs; simpl.
  - intros [= <- _]. exact Habs.
  - unfold bind. destruct (step rt fuel e st) as [[] st1 tr1| |] eqn:Hstep; try discriminate.
    destruct (for_each es _ st1) as [[] st2 tr2| |] eqn:Hrest; try discriminate.
    intros [= <- _].
    apply (IH st1 st2 tr2); [|exact Hrest].
    apply (absent_room_stays rt fuel e st st1 tr1 R Hnc Habs Hstep).
Qed.

Lemma absent_room_stays_unannounced rt fuel e st st' tr R :
  (forall ws, ~ In (ws, msg_room_created R) (sends tr)) ->
  rooms st !! R = None ->
  step rt fuel e st = Ret tt st' tr ->
  rooms st' !! R = None.
Proof.
  intros Hquiet Habs Hstep.
  destruct e as [ws message|ws].
  2:{ apply (absent_room_stays rt fuel (Close ws) st st' tr R); [|exact Habs|exact Hstep].
      intros (ws' & m & d & He & _). discriminate. }
  assert (Hother : ~ creates rt (Message ws message) -> rooms st' !! R = None).
  { intros Hnc.
    exact (absent_room_stays rt fuel (Message ws message) st st' tr R Hnc Habs Hstep). }
  simpl in Hstep.
  destruct (parsed rt message) as [data|] eqn:Hp.
  2:{ apply Hother. intros (ws' & m & d & [= <- <-] & Hp' & _). congruence. }
  destruct (asKey (member "type" data)) as [type|] eqn:Ht.
  2:{ apply Hother. intros (ws' & m & d & [= <- <-] & Hp' & Ht'). congruence. }
  destruct (String.eqb_spec type "create-room") as [->|Hc].
  - destruct (create_effect _ _ _ _ _ _ _ _ Hp Ht Hstep) as (j & Hfree & -> & ->).
    simpl. rewrite lookup_insert_ne; [exact Habs|].
    intros E. apply (Hquiet ws). simpl. left. rewrite E. reflexivity.
  - apply Hother. intros (ws' & m & d & [= <- <-] & Hp' & Ht'). congruence.
Qed.

Lemma absent_room_stays_unannounced_run fuel es R :
  forall st st' tr,
    (forall ws, ~ In (ws, msg_room_created R) (sends tr)) ->
    rooms st !! R = None ->
    run_events fuel es st = Ret tt st' tr ->
    rooms st' !! R = None.
Proof.
  unfold run_events. induction es as [|[rt e] es IH]; intros st st' tr Hquiet Habs; simpl.
  - intros [= <- _]. exact Habs.
  - unfold bind. destruct (step rt fuel e st) as [[] st1 tr1| |] eqn:Hstep; try discriminate.
    destruct (for_each es _ st1) as [[] st2 tr2| |] eqn:Hrest; try discriminate.
    intros [= <- <-].
    assert (Hq1 : forall ws, ~ In (ws, msg_room_created R) (sends tr1)).
    { intros ws Hin. apply (Hquiet ws). rewrite sends_app. apply in_or_app. auto. }
    assert (Hq2 : forall ws, ~ In (ws, msg_room_created R) (sends tr2)).
    { intros ws Hin. apply (Hquiet ws). rewrite sends_app. apply in_or_app. auto. }
    apply (IH st1 st2 tr2 Hq2); [|exact Hrest].
    apply (absent_room_stays_unannounced rt fuel e st st1 tr1 R Hq1 Habs Hstep).
Qed.

(** * The claims *)

(** ** Creating a room *)

(** C1. A [create-room] request that is answered reserves a code that
    is the decimal rendering of a number of 100000..999999, six digits
    long, and unused by every room active at that moment; it stores
    under that code a room with the sender as broadcaster and no
    viewer, binds the sender's session, and only then sends
    [room-created] with that code to the sender.  The request is
    answered as soon as one of the draws is unused ([fuel] bounds the
    retries), and it never throws. *)
Theorem create_room_reserves_fresh_code rt ws message data st :
  (forall k, 0 <= Math_random rt k < 2 ^ 53) ->
  parsed rt message = Some data ->
  asKey (member "type" data) = Some "create-room" ->
  (forall fuel st' tr,
      handleMessage rt fuel ws message st = Ret tt st' tr ->
      exists n code,
        100000 <= n <= 999999 /\ code = pretty n /\
        six_digit_code code = true /\
        rooms st !! code = None /\
        let room := {| broadcaster := ws; viewers := [] |} in
        let session := {| role := "broadcaster"; roomId := code; id := None |} in
        rooms st' = <[code := room]> (rooms st) /\
        sessionData st' = <[raw ws := session]> (sessionData st) /\
        tr = [RoomsSet code room;
              SessionSet (raw ws) session;
              ConsoleLog ("Room created: " ++ code);
              Send ws (msg_room_created code)]) /\
  (forall fuel e st' tr, handleMessage rt fuel ws message st <> Throw e st' tr) /\
  (forall j fuel,
      rooms st !! generateRoomId (Math_random rt j) = None ->
      (j <= fuel)%nat ->
      exists st' tr, handleMessage rt fuel ws message st = Ret tt st' tr).
Proof.
  intros Hrange Hp Ht. split; [|split].
  - intros fuel st' tr Hrun.
    destruct (create_effect _ _ _ _ _ _ _ _ Hp Ht Hrun) as (j & Hfree & -> & ->).
    destruct (generateRoomId_range _ (Hrange j)) as (n & Hn & Hcode).
    exists n, (generateRoomId (Math_random rt j)).
    split; [exact Hn|]. split; [exact Hcode|].
    split; [apply generateRoomId_six_digits, Hrange|].
    split; [exact Hfree|]. simpl. auto.
  - intros fuel e st' tr. apply handleMessage_never_throws.
  - intros j fuel Hj Hle. exact (create_answered _ _ _ _ _ _ _ Hp Ht Hj Hle).
Qed.

Lemma create_room_reserves_fresh_code_witness :
  exists st' tr,
    handleMessage Demo.rt 1 Demo.bob Demo.create_room Demo.lobby = Ret tt st' tr /\
    sends tr = [(Demo.bob, msg_room_created "100109")] /\
    rooms Demo.lobby !! "100109" = None /\
    rooms st' !! "100109" = Some {| broadcaster := Demo.bob; viewers := [] |}.
Proof.
  assert (Hrange : forall k, 0 <= Math_random Demo.rt k < 2 ^ 53).
  { intros k. cbv [Demo.rt Math_random].
    pose proof (Z.mod_pos_bound (Z.of_nat k) 8192 eq_refl).
    change (2 ^ 40) with 1099511627776. change (2 ^ 53) with 9007199254740992. lia. }
  destruct (create_room_reserves_fresh_code Demo.rt Demo.bob Demo.create_room
              Demo.create_room Demo.lobby Hrange eq_refl eq_refl) as (_ & _ & Hend).
  destruct (Hend 1%nat 1%nat eq_refl (le_n 1)) as (st' & tr & Hrun).
  exists st', tr. split; [exact Hrun|].
  vm_compute in Hrun. injection Hrun as <- <-.
  repeat split; reflexivity.
Defined.

(** ** Closing the broadcaster *)

(** C2, as the code has it.  Closing the connection bound as
    broadcaster of [R] deletes the session and the room; of the viewers
    registered in [R], taken in registration order, each one whose
    socket is open is sent one [room-closed] and the others nothing;
    from then on a [join-room] naming [R] is answered with [error],
    until a [create-room] is answered with [room-created] for [R]
    again.  No room is stored under the empty code. *)
Theorem broadcaster_close_destroys_room rt ws st s :
  sessionData st !! raw ws = Some s ->
  role s = "broadcaster" ->
  rooms st !! "" = None ->
  let R := roomId s in
  let registered :=
    match rooms st !! R with Some room => Map_values (viewers room) | None => [] end in
  exists st' tr,
    handleClose rt ws st = Ret tt st' tr /\
    sessionData st' = delete (raw ws) (sessionData st) /\
    rooms st' = delete R (rooms st) /\
    sends tr = List.map (fun viewer => (viewer, msg_room_closed))
                 (List.filter (fun viewer => readyState rt (raw viewer) =? 1) registered) /\
    (forall fuel es st'' tr'',
        run_events fuel es st' = Ret tt st'' tr'' ->
        (forall to, ~ In (to, msg_room_created R) (sends tr'')) ->
        forall rt' fuel' ws' message data,
          parsed rt' message = Some data ->
          asKey (member "type" data) = Some "join-room" ->
          member "roomId" data = Some (VStr R) ->
          handleMessage rt' fuel' ws' message st'' = Ret tt st'' [Send ws' msg_error]).
Proof.
  intros Hs Hrole Hempty R registered.
  assert (Hjoin : forall st', rooms st' = delete R (rooms st) ->
    forall fuel es st'' tr'',
        run_events fuel es st' = Ret tt st'' tr'' ->
        (forall to, ~ In (to, msg_room_created R) (sends tr'')) ->
        forall rt' fuel' ws' message data,
          parsed rt' message = Some data ->
          asKey (member "type" data) = Some "join-room" ->
          member "roomId" data = Some (VStr R) ->
          handleMessage rt' fuel' ws' message st'' = Ret tt st'' [Send ws' msg_error]).
  { intros st' Hst' fuel es st'' tr'' Hrun Hquiet rt' fuel' ws' message data Hp Ht Hc.
    apply (join_missing_run rt' fuel' ws' message data st'' Hp Ht).
    intros code Hcode. rewrite Hc in Hcode. injection Hcode as <-.
    apply (absent_room_stays_unannounced_run fuel es R st' st'' tr'' Hquiet); [|exact Hrun].
    rewrite Hst'. apply lookup_delete_eq. }
  unfold handleClose, bind, sessionData_get, sessionData_delete, rooms_get.
  rewrite Hs. simpl.
  destruct (String.eqb_spec (roomId s) "") as [E|E].
  - (* the falsy code: no room is stored under it *)
    assert (Hnone : rooms st !! R = None).
    { subst R. replace (roomId s) with "" by exact (eq_sym E). exact Hempty. }
    assert (Hd : rooms st = delete R (rooms st)).
    { symmetry. apply delete_id. exact Hnone. }
    subst registered. rewrite Hnone.
    eexists _, _. split; [reflexivity|]. simpl.
    split; [reflexivity|]. split; [exact Hd|]. split; [reflexivity|].
    apply Hjoin. exact Hd.
  - simpl. subst registered. fold R.
    destruct (rooms st !! R) as [room|] eqn:Hroom.
    + rewrite Hrole. simpl. unfold log, emit. simpl.
      rewrite notify_open. simpl. unfold rooms_delete. simpl.
      eexists _, _. split; [reflexivity|]. simpl.
      split; [reflexivity|]. split; [reflexivity|].
      split.
      * rewrite sends_app, sends_of_sends. simpl. rewrite app_nil_r. reflexivity.
      * apply Hjoin. reflexivity.
    + eexists _, _. split; [reflexivity|]. simpl.
      split; [reflexivity|].
      assert (Hd : rooms st = delete R (rooms st)).
      { symmetry. apply delete_id. exact Hroom. }
      split; [exact Hd|]. split; [reflexivity|].
      apply Hjoin. exact Hd.
Qed.

Lemma broadcaster_close_destroys_room_witness :
  exists st' tr st'' tr'',
    handleClose Demo.rt Demo.alice Demo.stage = Ret tt st' tr /\
    sessionData st' !! 1%nat = None /\
    rooms st' !! "482913" = None /\
    sends tr = [(Demo.bob, msg_room_closed); (Demo.carol, msg_room_closed)] /\
    run_events 1 [(Demo.rt, Message Demo.bob Demo.create_room);
                  (Demo.rt, Close Demo.carol)] st' = Ret tt st'' tr'' /\
    sends tr'' = [(Demo.bob, msg_room_created "100000")] /\
    handleMessage Demo.rt 0 Demo.dave (Demo.join_room "482913") st''
    = Ret tt st'' [Send Demo.dave msg_error].
Proof.
  destruct (broadcaster_close_destroys_room Demo.rt Demo.alice Demo.stage
              (Demo.broadcasting "482913") eq_refl eq_refl eq_refl)
    as (st' & tr & Hrun & Hsess & Hrooms & Hsends & Hjoin).
  destruct (run_events 1 [(Demo.rt, Message Demo.bob Demo.create_room);
                          (Demo.rt, Close Demo.carol)] st')
    as [[] st'' tr''| |] eqn:Hrest;
    [|vm_compute in Hrun; injection Hrun as <- <-; vm_compute in Hrest; discriminate..].
  assert (Hsent : sends tr'' = [(Demo.bob, msg_room_created "100000")]).
  { vm_compute in Hrun. injection Hrun as <- <-.
    vm_compute in Hrest. injection Hrest as <- <-. reflexivity. }
  exists st', tr, st'', tr''. split; [exact Hrun|].
  split; [rewrite Hsess; reflexivity|].
  split; [rewrite Hrooms; reflexivity|].
  split; [rewrite Hsends; reflexivity|].
  split; [exact Hrest|].
  split; [exact Hsent|].
  refine (Hjoin 1%nat _ st'' tr'' Hrest _ Demo.rt 0%nat Demo.dave
            (Demo.join_room "482913") (Demo.join_room "482913")
            eq_refl eq_refl eq_refl).
  rewrite Hsent. intros to [Hin|[]]. discriminate.
Defined.

(** The claim as worded fails: alice, broadcaster of room 100000,
    closes; bob sends [create-room] and the first draw, unused again,
    renders as 100000; dave's [join-room] naming 100000 is then
    accepted, not answered with [error]. *)
Lemma closed_room_code_is_drawn_again :
  (exists tr, handleMessage Demo.rt 0 Demo.alice Demo.create_room initial
              = Ret tt Demo.lobby tr) /\
  sessionData Demo.lobby !! raw Demo.alice = Some (Demo.broadcasting "100000") /\
  (exists tr, handleClose Demo.rt Demo.alice Demo.lobby = Ret tt initial tr) /\
  exists st tr,
    handleMessage Demo.rt 0 Demo.bob Demo.create_room initial = Ret tt st tr /\
    sends tr = [(Demo.bob, msg_room_created "100000")] /\
    handleMessage Demo.rt 0 Demo.dave (Demo.join_room "100000") st
    = Ret tt Demo.reopened
        [ViewersSet "100000" "x7f2q1abc" Demo.dave;
         SessionSet 4%nat (Demo.viewing "100000" "x7f2q1abc");
         ConsoleLog "Viewer x7f2q1abc joined room 100000";
         Send Demo.dave (msg_joined_room "100000" "x7f2q1abc");
         Send Demo.bob (msg_viewer_connect "x7f2q1abc")].
Proof.
  split; [eexists; reflexivity|].
  split; [reflexivity|].
  split; [eexists; reflexivity|].
  eexists _, _. split; [reflexivity|]. split; reflexivity.
Qed.

(** ** Relaying an offer *)

(** What [offer] does, for every sender: the frame goes, unchanged, to
    the viewer that [to] names in the room of the sender's session, and
    to nobody when there is no such session, room or viewer; the tables
    stay as they are.  The role of the sender is not read. *)
Lemma offer_routing rt fuel ws message data st :
  parsed rt message = Some data ->
  asKey (member "type" data) = Some "offer" ->
  exists tr,
    handleMessage rt fuel ws message st = Ret tt st tr /\
    sends tr =
      match sessionData st !! raw ws with
      | Some sData =>
          match rooms st !! roomId sData, asKey (member "to" data) with
          | Some room, Some to =>
              if String.eqb (roomId sData) "" || String.eqb to "" then []
              else match Map_get to (viewers room) with
                   | Some viewer => [(viewer, data)]
                   | None => []
                   end
          | _, _ => []
          end
      | None => []
      end.
Proof.
  intros Hp Ht. unfold handleMessage, try_catch. rewrite Hp.
  rewrite (dispatch_typed _ _ _ _ _ Ht). simpl.
  unfold caseOffer, bind, sessionData_get, rooms_get, viewerNamed.
  destruct (sessionData st !! raw ws) as [sData|]; simpl; [|eauto].
  destruct (String.eqb (roomId sData) "") eqn:E; simpl.
  { eexists; split; [reflexivity|]. simpl. repeat case_match; reflexivity. }
  destruct (rooms st !! roomId sData) as [room|]; simpl; [|eauto].
  destruct (member "to" data) as [[| | |to| |]|]; simpl; eauto.
  - destruct b; simpl; eauto.
  - destruct (negb (mantissa =? 0)); simpl; eauto.
  - destruct (String.eqb to ""); simpl; [eauto|].
    destruct (Map_get to (viewers room)); simpl; eauto.
Qed.

(** C3. The [offer] case does not read the sender's role: an [offer]
    sent by bob, a viewer of room 482913, and naming carol, another
    viewer of that room, is delivered to carol. *)
Theorem offer_from_viewer_is_relayed :
  sessionData Demo.stage !! raw Demo.bob = Some (Demo.viewing "482913" "bbbbbbbbb") /\
  handleMessage Demo.rt 0 Demo.bob (Demo.offer_to "ccccccccc") Demo.stage
  = Ret tt Demo.stage [Send Demo.carol (Demo.offer_to "ccccccccc")].
Proof. split; reflexivity. Qed.

(** ** Joining *)

(** X19. The operations of an accepted [join-room].  A [join-room]
    naming an existing room draws a viewer id, sets it in the room's
    viewer map, binds the sender's session as viewer, replies
    [joined-room] to the sender and then, exactly when the
    broadcaster's socket is open, sends it [viewer-connect]; the
    operations come in this order and there are no others.  The id is
    whatever the draw renders as: the viewer map is not consulted. *)
Theorem join_existing_room rt fuel ws message data st code room :
  parsed rt message = Some data ->
  asKey (member "type" data) = Some "join-room" ->
  member "roomId" data = Some (VStr code) ->
  rooms st !! code = Some room ->
  let viewerId := substring 2 9 (toString36 rt (Math_random rt 0)) in
  let room' := {| broadcaster := broadcaster room;
                  viewers := Map_set viewerId ws (viewers room) |} in
  let session := {| role := "viewer"; roomId := code; id := Some viewerId |} in
  handleMessage rt fuel ws message st
  = Ret tt {| rooms := <[code := room']> (rooms st);
              sessionData := <[raw ws := session]> (sessionData st) |}
        ([ViewersSet code viewerId ws;
          SessionSet (raw ws) session;
          ConsoleLog ("Viewer " ++ viewerId ++ " joined room " ++ code);
          Send ws (msg_joined_room code viewerId)]
         ++ (if readyState rt (raw (broadcaster room)) =? 1
             then [Send (broadcaster room) (msg_viewer_connect viewerId)]
             else []))
  /\ Map_get viewerId (viewers room') = Some ws.
Proof.
  intros Hp Ht Hc Hr viewerId room' session. split.
  - exact (join_found_run rt fuel ws message data st code room Hp Ht Hc Hr).
  - apply Map_get_set_eq.
Qed.

Lemma join_existing_room_witness :
  handleMessage Demo.rt 0 Demo.bob (Demo.join_room "100000") Demo.lobby
  = Ret tt Demo.watched
      [ViewersSet "100000" "x7f2q1abc" Demo.bob;
       SessionSet 2%nat (Demo.viewing "100000" "x7f2q1abc");
       ConsoleLog "Viewer x7f2q1abc joined room 100000";
       Send Demo.bob (msg_joined_room "100000" "x7f2q1abc");
       Send Demo.alice (msg_viewer_connect "x7f2q1abc")].
Proof.
  destruct (join_existing_room Demo.rt 0 Demo.bob (Demo.join_room "100000")
              (Demo.join_room "100000") Demo.lobby "100000"
              {| broadcaster := Demo.alice; viewers := [] |}
              eq_refl eq_refl eq_refl eq_refl) as [Hrun _].
  rewrite Hrun. reflexivity.
Defined.

(** C4. The viewer id of an accepted [join-room] is not fresh.  bob
    watches room 100000 under the id x7f2q1abc; carol's [join-room]
    naming 100000, with a draw that renders alike, is accepted under
    that same id, which is a key of the viewer map at that moment: the
    entry that was bob's becomes carol's, both sessions carry the id,
    and the broadcaster is told that x7f2q1abc connected a second
    time. *)
Theorem join_hands_out_id_in_use :
  (exists tr, run_events 0 [(Demo.rt, Message Demo.alice Demo.create_room);
                            (Demo.rt, Message Demo.bob (Demo.join_room "100000"))] initial
              = Ret tt Demo.watched tr) /\
  rooms Demo.watched !! "100000"
  = Some {| broadcaster := Demo.alice; viewers := [("x7f2q1abc", Demo.bob)] |} /\
  handleMessage Demo.rt 0 Demo.carol (Demo.join_room "100000") Demo.watched
  = Ret tt Demo.taken_over
      [ViewersSet "100000" "x7f2q1abc" Demo.carol;
       SessionSet 3%nat (Demo.viewing "100000" "x7f2q1abc");
       ConsoleLog "Viewer x7f2q1abc joined room 100000";
       Send Demo.carol (msg_joined_room "100000" "x7f2q1abc");
       Send Demo.alice (msg_viewer_connect "x7f2q1abc")] /\
  rooms Demo.taken_over !! "100000"
  = Some {| broadcaster := Demo.alice; viewers := [("x7f2q1abc", Demo.carol)] |} /\
  sessionData Demo.taken_over !! raw Demo.bob = Some (Demo.viewing "100000" "x7f2q1abc") /\
  sessionData Demo.taken_over !! raw Demo.carol = Some (Demo.viewing "100000" "x7f2q1abc").
Proof.
  split; [eexists; reflexivity|].
  split; [reflexivity|].
  split; [reflexivity|].
  repeat split; reflexivity.
Qed.

(** C5. A [join-room] whose [roomId] names no active room (or is not a
    string at all) sends exactly one [error] message, to the sender, and
    performs nothing else: both tables are as they were. *)
Theorem join_unknown_room rt fuel ws message data st :
  parsed rt message = Some data ->
  asKey (member "type" data) = Some "join-room" ->
  (forall code, member "roomId" data = Some (VStr code) -> rooms st !! code = None) ->
  handleMessage rt fuel ws message st = Ret tt st [Send ws msg_error].
Proof. exact (join_missing_run rt fuel ws message data st). Qed.

Lemma join_unknown_room_witness :
  handleMessage Demo.rt 0 Demo.carol (Demo.join_room "000000") Demo.lobby
  = Ret tt Demo.lobby [Send Demo.carol msg_error].
Proof.
  apply (join_unknown_room Demo.rt 0 Demo.carol _ (Demo.join_room "000000")).
  - reflexivity.
  - reflexivity.
  - intros code Hc. injection Hc as <-. reflexivity.
Defined.

(** ** One session per connection *)

(** C6, as the code has it.  The session table is a map keyed by the
    raw socket.  An event leaves the session of every other connection
    alone; a close deletes the session of its connection; a frame that
    is neither [create-room] nor a [join-room] naming an existing room
    changes no table.  [create-room] and an accepted [join-room] are
    not guarded by the sender's session: whether or not the sender is
    bound already, its session becomes the new binding and the registry
    gains the new room, or the new viewer entry. *)
Theorem session_rebinds_on_request rt fuel e st st' tr :
  step rt fuel e st = Ret tt st' tr ->
  (forall c, c <> raw (conn e) -> sessionData st' !! c = sessionData st !! c) /\
  (forall ws, e = Close ws -> sessionData st' !! raw ws = None) /\
  (forall ws message,
      e = Message ws message -> ~ binding_request rt st message -> st' = st) /\
  (forall ws message data,
      e = Message ws message ->
      parsed rt message = Some data ->
      asKey (member "type" data) = Some "create-room" ->
      exists code,
        rooms st !! code = None /\
        sessionData st' !! raw ws
        = Some {| role := "broadcaster"; roomId := code; id := None |} /\
        rooms st' = <[code := {| broadcaster := ws; viewers := [] |}]> (rooms st)) /\
  (forall ws message data code room,
      e = Message ws message ->
      parsed rt message = Some data ->
      asKey (member "type" data) = Some "join-room" ->
      member "roomId" data = Some (VStr code) ->
      rooms st !! code = Some room ->
      let viewerId := substring 2 9 (toString36 rt (Math_random rt 0)) in
      sessionData st' !! raw ws
      = Some {| role := "viewer"; roomId := code; id := Some viewerId |} /\
      rooms st' = <[code := {| broadcaster := broadcaster room;
                               viewers := Map_set viewerId ws (viewers room) |}]> (rooms st)).
Proof.
  intros Hstep. split; [|split; [|split; [|split]]].
  - intros c Hc. destruct e as [ws message|ws]; simpl in *.
    + destruct (handleMessage_cases _ _ _ _ _ _ _ Hstep)
        as [->|[(j & room & session & _ & _ & ->)|(code & room & room' & session & _ & ->)]];
        simpl; [reflexivity| |]; apply lookup_insert_ne; congruence.
    + destruct (handleClose_cases rt ws st) as (st1 & tr1 & Hrun & Hsess & _).
      rewrite Hrun in Hstep. injection Hstep as <- _.
      rewrite Hsess. apply lookup_delete_ne. congruence.
  - intros ws ->. simpl in Hstep.
    destruct (handleClose_cases rt ws st) as (st1 & tr1 & Hrun & Hsess & _).
    rewrite Hrun in Hstep. injection Hstep as <- _.
    rewrite Hsess. apply lookup_delete_eq.
  - intros ws message -> Hnb. simpl in Hstep.
    exact (other_message_pure _ _ _ _ _ _ _ Hnb Hstep).
  - intros ws message data -> Hp Ht. simpl in Hstep.
    destruct (create_effect _ _ _ _ _ _ _ _ Hp Ht Hstep) as (j & Hfree & -> & _).
    exists (generateRoomId (Math_random rt j)). simpl.
    split; [exact Hfree|]. split; [apply lookup_insert_eq | reflexivity].
  - intros ws message data code room -> Hp Ht Hc Hr viewerId. simpl in Hstep.
    pose proof (join_found_run rt fuel ws message data st code room Hp Ht Hc Hr) as Hrun.
    simpl in Hrun. rewrite Hrun in Hstep. injection Hstep as <- _. simpl.
    split; [apply lookup_insert_eq | reflexivity].
Qed.

Lemma session_rebinds_on_request_witness :
  sessionData Demo.watched !! raw Demo.bob = Some (Demo.viewing "100000" "x7f2q1abc") /\
  exists code,
    rooms Demo.watched !! code = None /\
    sessionData Demo.rebound !! raw Demo.bob = Some (Demo.broadcasting code) /\
    rooms Demo.rebound = <[code := {| broadcaster := Demo.bob; viewers := [] |}]>
                           (rooms Demo.watched).
Proof.
  split; [reflexivity|].
  assert (Hstep : step Demo.rt 1 (Message Demo.bob Demo.create_room) Demo.watched
                  = Ret tt Demo.rebound
                      [RoomsSet "100109" {| broadcaster := Demo.bob; viewers := [] |};
                       SessionSet 2%nat (Demo.broadcasting "100109");
                       ConsoleLog "Room created: 100109";
                       Send Demo.bob (msg_room_created "100109")])
    by reflexivity.
  destruct (session_rebinds_on_request _ _ _ _ _ _ Hstep) as (_ & _ & _ & Hcreate & _).
  exact (Hcreate Demo.bob Demo.create_room Demo.create_room eq_refl eq_refl eq_refl).
Defined.

(** The claim as worded fails: bob, bound as a viewer of room 100000,
    sends [create-room]; his role, room code and viewer id all change
    and the registry gains a room. *)
Lemma bound_connection_is_rebound :
  (exists tr, run_events 0 [(Demo.rt, Message Demo.alice Demo.create_room);
                            (Demo.rt, Message Demo.bob (Demo.join_room "100000"))] initial
              = Ret tt Demo.watched tr) /\
  sessionData Demo.watched !! raw Demo.bob = Some (Demo.viewing "100000" "x7f2q1abc") /\
  (exists tr, handleMessage Demo.rt 1 Demo.bob Demo.create_room Demo.watched
              = Ret tt Demo.rebound tr) /\
  sessionData Demo.rebound !! raw Demo.bob = Some (Demo.broadcasting "100109") /\
  rooms Demo.watched !! "100109" = None /\
  rooms Demo.rebound !! "100109" = Some {| broadcaster := Demo.bob; viewers := [] |}.
Proof.
  split; [eexists; reflexivity|].
  split; [reflexivity|].
  split; [eexists; reflexivity|].
  repeat split; reflexivity.
Qed.

(** ** Viewer identifiers *)

(** C7. The viewer id is drawn and set without a look at the room's
    viewer map (unlike the room code).  Two joins into room 100000 whose
    draws render alike receive the same id, and the second takes over
    the entry of the first; so does a join that follows the leave of
    the viewer that had the id. *)
Theorem viewer_id_is_reused :
  (exists st tr,
      run_events 0 [(Demo.rt, Message Demo.bob (Demo.join_room "100000"));
                    (Demo.rt, Message Demo.carol (Demo.join_room "100000"))] Demo.lobby
      = Ret tt st tr /\
      sends tr = [(Demo.bob, msg_joined_room "100000" "x7f2q1abc");
                  (Demo.alice, msg_viewer_connect "x7f2q1abc");
                  (Demo.carol, msg_joined_room "100000" "x7f2q1abc");
                  (Demo.alice, msg_viewer_connect "x7f2q1abc")] /\
      rooms st !! "100000"
      = Some {| broadcaster := Demo.alice; viewers := [("x7f2q1abc", Demo.carol)] |}) /\
  (exists st tr,
      run_events 0 [(Demo.rt, Message Demo.bob (Demo.join_room "100000"));
                    (Demo.rt, Close Demo.bob);
                    (Demo.rt, Message Demo.carol (Demo.join_room "100000"))] Demo.lobby
      = Ret tt st tr /\
      sends tr = [(Demo.bob, msg_joined_room "100000" "x7f2q1abc");
                  (Demo.alice, msg_viewer_connect "x7f2q1abc");
                  (Demo.alice, msg_viewer_disconnect "x7f2q1abc");
                  (Demo.carol, msg_joined_room "100000" "x7f2q1abc");
                  (Demo.alice, msg_viewer_connect "x7f2q1abc")]).
Proof.
  split.
  - eexists _, _. split; [reflexivity|]. split; reflexivity.
  - eexists _, _. split; reflexivity.
Qed.

(** ** Closing a viewer *)




(** ** Frames that do not decode *)

(** C9, as the code has it.  A frame on which [JSON.parse] throws, or
    that is [null], raises an exception that the handler catches: the
    one operation performed is the [console.error], nothing is sent,
    both tables are as they were, and the handler returns. *)
Theorem undecodable_frame_discarded rt fuel ws message st e :
  decode_failure rt message = Some e ->
  handleMessage rt fuel ws message st
  = Ret tt st [ConsoleError "Error processing message:" e].
Proof.
  unfold decode_failure, handleMessage, try_catch.
  destruct (parsed rt message) as [data|].
  - destruct data; try discriminate. intros [= <-]. reflexivity.
  - intros [= <-]. reflexivity.
Qed.

Lemma undecodable_frame_discarded_witness :
  handleMessage Demo.rt 0 Demo.bob (VStr "{type:") Demo.stage
  = Ret tt Demo.stage [ConsoleError "Error processing message:" SyntaxError] /\
  handleMessage Demo.rt 0 Demo.bob (VStr "null") Demo.stage
  = Ret tt Demo.stage [ConsoleError "Error processing message:" TypeError].
Proof.
  split; apply undecodable_frame_discarded; reflexivity.
Defined.

(** The claim as worded fails on JSON that lacks a field its type
    requires: nothing throws.  A [join-room] without [roomId] is
    answered with [error]; an [answer] without [sdp] from a viewer is
    relayed to the broadcaster. *)
Lemma incomplete_frame_is_handled :
  handleMessage Demo.rt 0 Demo.carol (VObj [("type", VStr "join-room")]) Demo.lobby
  = Ret tt Demo.lobby [Send Demo.carol msg_error] /\
  handleMessage Demo.rt 0 Demo.bob (VObj [("type", VStr "answer")]) Demo.stage
  = Ret tt Demo.stage [Send Demo.alice (VObj [("type", VStr "answer")])].
Proof. split; reflexivity. Qed.

(** ** Closing a connection that has no session *)

(** C10. Closing a connection to which no session is bound changes
    neither table and performs no operation at all: nothing is sent,
    nothing is logged. *)
Theorem close_unbound_noop rt ws st :
  sessionData st !! raw ws = None ->
  handleClose rt ws st = Ret tt st [].
Proof.
  intros Hs. unfold handleClose, bind, sessionData_get. rewrite Hs. reflexivity.
Qed.

Lemma close_unbound_noop_witness :
  sessionData Demo.stage !! raw Demo.dave = None /\
  handleClose Demo.rt Demo.dave Demo.stage = Ret tt Demo.stage [].
Proof.
  split; [reflexivity | apply close_unbound_noop; reflexivity].
Defined.

(** * Further properties of the handlers *)

(** ** The close handler, case by case *)

Lemma handleClose_run rt ws st :
  handleClose rt ws st =
    match sessionData st !! raw ws with
    | None => Ret tt st []
    | Some s =>
        let unbound := {| rooms := rooms st;
                          sessionData := delete (raw ws) (sessionData st) |} in
        if String.eqb (roomId s) "" then Ret tt unbound [SessionDelete (raw ws)]
        else
          match rooms st !! roomId s with
          | None => Ret tt unbound [SessionDelete (raw ws)]
          | Some room =>
              if String.eqb (role s) "broadcaster" then
                Ret tt {| rooms := delete (roomId s) (rooms st);
                          sessionData := delete (raw ws) (sessionData st) |}
                    ([SessionDelete (raw ws);
                      ConsoleLog ("Broadcaster left room " ++ roomId s ++ ". Destroying room.")]
                     ++ List.map (fun viewer => Send viewer msg_room_closed)
                          (List.filter (isOpen rt) (Map_values (viewers room)))
                     ++ [RoomsDelete (roomId s)])
              else
                match id s with
                | Some vid =>
                    if negb (String.eqb vid "") && Map_has vid (viewers room) then
                      Ret tt {| rooms := <[roomId s :=
                                             {| broadcaster := broadcaster room;
                                                viewers := Map_delete vid (viewers room) |}]>
                                           (rooms st);
                                sessionData := delete (raw ws) (sessionData st) |}
                          ([SessionDelete (raw ws); ViewersDelete (roomId s) vid;
                            ConsoleLog ("Viewer " ++ vid ++ " left room " ++ roomId s)]
                           ++ (if isOpen rt (broadcaster room)
                               then [Send (broadcaster room) (msg_viewer_disconnect vid)]
                               else []))
                    else Ret tt unbound [SessionDelete (raw ws)]
                | None => Ret tt unbound [SessionDelete (raw ws)]
                end
          end
    end.
Proof.
  unfold handleClose, bind, sessionData_get, sessionData_delete, rooms_get.
  destruct (sessionData st !! raw ws) as [s|]; simpl; [|reflexivity].
  destruct (String.eqb (roomId s) ""); simpl; [reflexivity|].
  destruct (rooms st !! roomId s) as [room|] eqn:Hroom; simpl; [|reflexivity].
  destruct (String.eqb (role s) "broadcaster"); simpl.
  { unfold log, emit. simpl. rewrite notify_open. reflexivity. }
  destruct (id s) as [vid|]; simpl; [|reflexivity].
  destruct (negb (String.eqb vid "") && Map_has vid (viewers room)); simpl; [|reflexivity].
  rewrite (alter_as_insert _ _ _ _ Hroom).
  destruct (isOpen rt (broadcaster room)); reflexivity.
Qed.

Lemma Map_get_values {V} k (m : list (string * V)) v :
  Map_get k m = Some v -> In v (Map_values m).
Proof.
  induction m as [|[k' v'] m IH]; simpl; [discriminate|].
  destruct (String.eqb k' k); [intros [= ->]; auto | auto].
Qed.

Lemma Map_delete_set_fresh {V} k (v : V) m :
  Map_get k m = None -> Map_delete k (Map_set k v m) = m.
Proof.
  unfold Map_delete. induction m as [|[k' v'] m IH]; simpl.
  - rewrite String.eqb_refl. reflexivity.
  - destruct (String.eqb k' k) eqn:E; [discriminate|]. intros Hm.
    simpl. rewrite E. simpl. rewrite (IH Hm). reflexivity.
Qed.

Lemma sends_in_map payload (l : list WS) to p :
  In (to, p) (sends (List.map (fun viewer => Send viewer payload) l)) ->
  In to l /\ p = payload.
Proof.
  rewrite sends_of_sends. intros Hin. apply in_map_iff in Hin.
  destruct Hin as (v & [= <- <-] & Hv). auto.
Qed.

(** ** The relay cases *)

Lemma truthy_named room data :
  (if truthy (member "to" data)
   then match viewerNamed room data with
        | Some viewer => send viewer data
        | None => ret tt
        end
   else ret tt)
  = match named_viewer room data with
    | Some viewer => send viewer data
    | None => ret tt
    end.
Proof.
  unfold viewerNamed, named_viewer.
  destruct (member "to" data) as [[| | |to| |]|]; simpl; try reflexivity.
  - destruct b; reflexivity.
  - destruct (negb (mantissa =? 0)); reflexivity.
  - destruct (String.eqb to ""); reflexivity.
Qed.

Lemma named_viewer_member room data viewer :
  named_viewer room data = Some viewer -> In viewer (members room).
Proof.
  unfold named_viewer, members.
  destruct (asKey (member "to" data)) as [to|]; [|discriminate].
  destruct (String.eqb to ""); [discriminate|].
  intros Hg. right. exact (Map_get_values _ _ _ Hg).
Qed.

Lemma guarded_named (b : bool) room data :
  (if b && truthy (member "to" data)
   then match viewerNamed room data with
        | Some viewer => send viewer data
        | None => ret tt
        end
   else ret tt)
  = if b then match named_viewer room data with
              | Some viewer => send viewer data
              | None => ret tt
              end
    else ret tt.
Proof. destruct b; simpl; [apply truthy_named | reflexivity]. Qed.

(** What a relayed frame does: the tables stay, and the frame is sent
    to its [relay_target], if it has one. *)
Lemma relay_run rt fuel ws message data type st :
  parsed rt message = Some data ->
  asKey (member "type" data) = Some type ->
  relay_type type ->
  exists tr,
    handleMessage rt fuel ws message st = Ret tt st tr /\
    sends tr =
      match sessionData st !! raw ws with
      | Some s =>
          if String.eqb (roomId s) "" then []
          else match rooms st !! roomId s with
               | Some room =>
                   match relay_target type s room data with
                   | Some to => [(to, data)]
                   | None => []
                   end
               | None => []
               end
      | None => []
      end.
Proof.
  intros Hp Ht Hrelay. unfold handleMessage, try_catch. rewrite Hp.
  rewrite (dispatch_typed _ _ _ _ _ Ht). unfold relay_target.
  destruct Hrelay as [->|[->| ->]]; simpl.
  - unfold caseOffer, bind, sessionData_get, rooms_get.
    destruct (sessionData st !! raw ws) as [s|]; simpl; [|eauto].
    destruct (String.eqb (roomId s) ""); simpl; [eauto|].
    destruct (rooms st !! roomId s) as [room|]; simpl; [|eauto].
    rewrite truthy_named.
    destruct (named_viewer room data); simpl; eauto.
  - unfold caseAnswer, bind, sessionData_get, rooms_get.
    destruct (sessionData st !! raw ws) as [s|]; simpl; [|eauto].
    destruct (String.eqb (roomId s) ""); simpl; [eauto|].
    destruct (rooms st !! roomId s) as [room|]; simpl; [|eauto].
    destruct (String.eqb (role s) "viewer"); simpl; [eauto|].
    rewrite guarded_named.
    destruct (String.eqb (role s) "broadcaster"); simpl; [|eauto].
    destruct (named_viewer room data); simpl; eauto.
  - unfold caseCandidate, bind, sessionData_get, rooms_get.
    destruct (sessionData st !! raw ws) as [s|]; simpl; [|eauto].
    destruct (String.eqb (roomId s) ""); simpl; [eauto|].
    destruct (rooms st !! roomId s) as [room|]; simpl; [|eauto].
    destruct (String.eqb (role s) "broadcaster"); simpl; [|eauto].
    rewrite truthy_named.
    destruct (named_viewer room data); simpl; eauto.
Qed.

Lemma relay_target_member type s room data to :
  relay_target type s room data = Some to -> In to (members room).
Proof.
  unfold relay_target.
  repeat match goal with
         | |- context [if ?b then _ else _] => destruct b
         end;
    try discriminate;
    try (apply named_viewer_member);
    intros [= <-]; left; reflexivity.
Qed.

Lemma relay_type_dec type :
  relay_type type \/ ~ relay_type type.
Proof.
  unfold relay_type.
  destruct (String.eqb_spec type "offer"); [auto|].
  destruct (String.eqb_spec type "answer"); [auto|].
  destruct (String.eqb_spec type "candidate"); [auto|].
  right. intros [?|[?|?]]; contradiction.
Qed.

(** A frame of a type the [switch] has no case for does nothing. *)
Lemma unknown_run rt fuel ws message data st :
  parsed rt message = Some data ->
  data <> VNull ->
  (forall type, asKey (member "type" data) = Some type ->
                type <> "create-room" /\ type <> "join-room" /\ ~ relay_type type) ->
  handleMessage rt fuel ws message st = Ret tt st [].
Proof.
  intros Hp Hnull Hunknown. unfold handleMessage, try_catch. rewrite Hp.
  destruct (asKey (member "type" data)) as [type|] eqn:Ht.
  - destruct (Hunknown type eq_refl) as (Hc & Hj & Hr).
    rewrite (dispatch_typed _ _ _ _ _ Ht).
    apply String.eqb_neq in Hc, Hj. rewrite Hc, Hj.
    destruct (String.eqb_spec type "offer") as [->|_].
    { exfalso. apply Hr. left. reflexivity. }
    destruct (String.eqb_spec type "answer") as [->|_].
    { exfalso. apply Hr. right; left. reflexivity. }
    destruct (String.eqb_spec type "candidate") as [->|_].
    { exfalso. apply Hr. right; right. reflexivity. }
    reflexivity.
  - unfold dispatch. rewrite Ht. destruct data; try reflexivity. contradiction.
Qed.

(** ** Replies of viewers and of the broadcaster *)

(** X1. An [answer] or a [candidate] sent by a viewer goes, unchanged,
    to the broadcaster of the viewer's room, whatever [to] says and
    whether or not the broadcaster's socket is open; no table changes
    and nothing else is sent or logged. *)
Theorem viewer_reply_reaches_broadcaster rt fuel ws message data type st s room :
  parsed rt message = Some data ->
  asKey (member "type" data) = Some type ->
  type = "answer" \/ type = "candidate" ->
  sessionData st !! raw ws = Some s ->
  role s = "viewer" ->
  roomId s <> "" ->
  rooms st !! roomId s = Some room ->
  handleMessage rt fuel ws message st = Ret tt st [Send (broadcaster room) data].
Proof.
  intros Hp Ht Htype Hs Hrole Hcode Hroom.
  apply String.eqb_neq in Hcode.
  unfold handleMessage, try_catch. rewrite Hp.
  rewrite (dispatch_typed _ _ _ _ _ Ht).
  destruct Htype as [-> | ->]; simpl.
  - unfold caseAnswer, bind, sessionData_get, rooms_get.
    rewrite Hs. simpl. rewrite Hcode. simpl. rewrite Hroom, Hrole. reflexivity.
  - unfold caseCandidate, bind, sessionData_get, rooms_get.
    rewrite Hs. simpl. rewrite Hcode. simpl. rewrite Hroom, Hrole. reflexivity.
Qed.

Lemma viewer_reply_reaches_broadcaster_witness :
  handleMessage Demo.rt 0 Demo.gone
    (VObj [("type", VStr "candidate"); ("candidate", VStr "udp"); ("to", VStr "ccccccccc")])
    Demo.stage
  = Ret tt Demo.stage
      [Send Demo.alice
         (VObj [("type", VStr "candidate"); ("candidate", VStr "udp");
                ("to", VStr "ccccccccc")])].
Proof.
  apply (viewer_reply_reaches_broadcaster Demo.rt 0 Demo.gone _ _ "candidate" Demo.stage
           (Demo.viewing "482913" "ggggggggg")
           {| broadcaster := Demo.alice;
              viewers := [("bbbbbbbbb", Demo.bob); ("ggggggggg", Demo.gone);
                          ("ccccccccc", Demo.carol)] |});
    try reflexivity.
  - right. reflexivity.
  - discriminate.
Defined.

(** X2. An [answer] or a [candidate] sent by the broadcaster goes,
    unchanged, to the viewer its [to] names when that is a non-empty
    string registered in the broadcaster's room, and to nobody
    otherwise; no table changes and nothing is logged. *)
Theorem broadcaster_reply_routing rt fuel ws message data type st s room :
  parsed rt message = Some data ->
  asKey (member "type" data) = Some type ->
  type = "answer" \/ type = "candidate" ->
  sessionData st !! raw ws = Some s ->
  role s = "broadcaster" ->
  roomId s <> "" ->
  rooms st !! roomId s = Some room ->
  handleMessage rt fuel ws message st
  = Ret tt st
      match member "to" data with
      | Some (VStr to) =>
          if String.eqb to "" then []
          else match Map_get to (viewers room) with
               | Some viewer => [Send viewer data]
               | None => []
               end
      | _ => []
      end.
Proof.
  intros Hp Ht Htype Hs Hrole Hcode Hroom.
  apply String.eqb_neq in Hcode.
  unfold handleMessage, try_catch. rewrite Hp.
  rewrite (dispatch_typed _ _ _ _ _ Ht).
  destruct Htype as [-> | ->]; simpl.
  - unfold caseAnswer, bind, sessionData_get, rooms_get.
    rewrite Hs. simpl. rewrite Hcode. simpl. rewrite Hroom, Hrole. simpl.
    rewrite truthy_named. unfold named_viewer.
    destruct (member "to" data) as [[| | |to| |]|]; simpl; try reflexivity.
    destruct (String.eqb to ""); [reflexivity|].
    destruct (Map_get to (viewers room)); reflexivity.
  - unfold caseCandidate, bind, sessionData_get, rooms_get.
    rewrite Hs. simpl. rewrite Hcode. simpl. rewrite Hroom, Hrole. simpl.
    rewrite truthy_named. unfold named_viewer.
    destruct (member "to" data) as [[| | |to| |]|]; simpl; try reflexivity.
    destruct (String.eqb to ""); [reflexivity|].
    destruct (Map_get to (viewers room)); reflexivity.
Qed.

Lemma broadcaster_reply_routing_witness :
  handleMessage Demo.rt 0 Demo.alice
    (VObj [("type", VStr "answer"); ("to", VStr "ccccccccc")]) Demo.stage
  = Ret tt Demo.stage
      [Send Demo.carol (VObj [("type", VStr "answer"); ("to", VStr "ccccccccc")])]
  /\
  handleMessage Demo.rt 0 Demo.alice
    (VObj [("type", VStr "answer"); ("to", VStr "zzzzzzzzz")]) Demo.stage
  = Ret tt Demo.stage [].
Proof.
  split.
  - apply (broadcaster_reply_routing Demo.rt 0 Demo.alice
             (VObj [("type", VStr "answer"); ("to", VStr "ccccccccc")])
             (VObj [("type", VStr "answer"); ("to", VStr "ccccccccc")])
             "answer" Demo.stage (Demo.broadcasting "482913")
             {| broadcaster := Demo.alice;
                viewers := [("bbbbbbbbb", Demo.bob); ("ggggggggg", Demo.gone);
                            ("ccccccccc", Demo.carol)] |});
      try reflexivity; [left; reflexivity | discriminate].
  - apply (broadcaster_reply_routing Demo.rt 0 Demo.alice
             (VObj [("type", VStr "answer"); ("to", VStr "zzzzzzzzz")])
             (VObj [("type", VStr "answer"); ("to", VStr "zzzzzzzzz")])
             "answer" Demo.stage (Demo.broadcasting "482913")
             {| broadcaster := Demo.alice;
                viewers := [("bbbbbbbbb", Demo.bob); ("ggggggggg", Demo.gone);
                            ("ccccccccc", Demo.carol)] |});
      try reflexivity; [left; reflexivity | discriminate].
Defined.

(** X3. On the same frame the [answer] case and the [candidate] case
    do the same thing whenever the sender's session, if it has one,
    carries one of the two roles the server writes. *)
Theorem answer_and_candidate_agree ws data st :
  (forall s, sessionData st !! raw ws = Some s ->
             role s = "viewer" \/ role s = "broadcaster") ->
  caseAnswer ws data st = caseCandidate ws data st.
Proof.
  intros Hroles. unfold caseAnswer, caseCandidate, bind, sessionData_get, rooms_get.
  destruct (sessionData st !! raw ws) as [s|]; simpl; [|reflexivity].
  destruct (String.eqb (roomId s) ""); simpl; [reflexivity|].
  destruct (rooms st !! roomId s) as [room|]; simpl; [|reflexivity].
  rewrite guarded_named, truthy_named.
  destruct (Hroles s eq_refl) as [-> | ->]; reflexivity.
Qed.

Lemma answer_and_candidate_agree_witness :
  caseAnswer Demo.bob (Demo.offer_to "ccccccccc") Demo.stage
  = caseCandidate Demo.bob (Demo.offer_to "ccccccccc") Demo.stage.
Proof.
  apply answer_and_candidate_agree.
  intros s [= <-]. left. reflexivity.
Defined.

(** X4. A frame whose [type] is missing, is not a string, or is none
    of the five the [switch] knows is ignored: no table changes,
    nothing is sent and nothing is logged. *)
Theorem unknown_type_ignored rt fuel ws message data st :
  parsed rt message = Some data ->
  data <> VNull ->
  (forall type, asKey (member "type" data) = Some type ->
                type <> "create-room" /\ type <> "join-room" /\ ~ relay_type type) ->
  handleMessage rt fuel ws message st = Ret tt st [].
Proof. exact (unknown_run rt fuel ws message data st). Qed.

Lemma unknown_type_ignored_witness :
  handleMessage Demo.rt 0 Demo.bob (VObj [("type", VStr "leave-room")]) Demo.stage
  = Ret tt Demo.stage []
  /\
  handleMessage Demo.rt 0 Demo.bob (VArr [VStr "offer"]) Demo.stage
  = Ret tt Demo.stage [].
Proof.
  split.
  - apply (unknown_type_ignored Demo.rt 0 Demo.bob _ (VObj [("type", VStr "leave-room")]));
      [reflexivity | discriminate |].
    intros type [= <-]. unfold relay_type.
    repeat split; try discriminate. intros [?|[?|?]]; discriminate.
  - apply (unknown_type_ignored Demo.rt 0 Demo.bob _ (VArr [VStr "offer"]));
      [reflexivity | discriminate |].
    intros type Ht. discriminate.
Defined.

(** ** The outcomes of a frame *)

(** An answered frame is dropped, refused, or it creates a room, joins
    one, or is relayed to one member of the sender's room. *)
Lemma handleMessage_outcomes rt fuel ws message st st' tr :
  handleMessage rt fuel ws message st = Ret tt st' tr ->
  (st' = st /\ sends tr = []) \/
  (st' = st /\ sends tr = [(ws, msg_error)]) \/
  (exists j,
      let code := generateRoomId (Math_random rt j) in
      rooms st !! code = None /\
      st' = {| rooms := <[code := {| broadcaster := ws; viewers := [] |}]> (rooms st);
               sessionData :=
                 <[raw ws := {| role := "broadcaster"; roomId := code; id := None |}]>
                   (sessionData st) |} /\
      sends tr = [(ws, msg_room_created code)]) \/
  (exists code room,
      let viewerId := substring 2 9 (toString36 rt (Math_random rt 0)) in
      rooms st !! code = Some room /\
      st' = {| rooms := <[code := {| broadcaster := broadcaster room;
                                     viewers := Map_set viewerId ws (viewers room) |}]>
                          (rooms st);
               sessionData :=
                 <[raw ws := {| role := "viewer"; roomId := code; id := Some viewerId |}]>
                   (sessionData st) |} /\
      sends tr = (ws, msg_joined_room code viewerId)
                 :: (if isOpen rt (broadcaster room)
                     then [(broadcaster room, msg_viewer_connect viewerId)] else [])) \/
  (st' = st /\
   exists data s room to,
     parsed rt message = Some data /\
     sessionData st !! raw ws = Some s /\
     rooms st !! roomId s = Some room /\
     In to (members room) /\
     sends tr = [(to, data)]).
Proof.
  intros Hrun.
  destruct (parsed rt message) as [data|] eqn:Hp.
  2:{ left. unfold handleMessage, try_catch in Hrun. rewrite Hp in Hrun.
      injection Hrun as <- <-. auto. }
  destruct (asKey (member "type" data)) as [type|] eqn:Ht.
  2:{ left. unfold handleMessage, try_catch, dispatch in Hrun. rewrite Hp, Ht in Hrun.
      destruct data; injection Hrun as <- <-; auto. }
  destruct (String.eqb_spec type "create-room") as [->|Hc].
  { right; right; left.
    destruct (create_effect _ _ _ _ _ _ _ _ Hp Ht Hrun) as (j & Hfree & -> & ->).
    exists j. simpl. auto. }
  destruct (String.eqb_spec type "join-room") as [->|Hj].
  { destruct (join_cases data st) as [(code & room & Hc' & Hr)|Hmiss].
    - right; right; right; left.
      pose proof (join_found_run rt fuel ws message data st code room Hp Ht Hc' Hr) as Hf.
      simpl in Hf. rewrite Hf in Hrun. injection Hrun as <- <-.
      exists code, room. simpl. split; [exact Hr|]. split; [reflexivity|].
      unfold isOpen, OPEN.
      destruct (readyState rt (raw (broadcaster room)) =? 1); reflexivity.
    - right; left.
      rewrite (join_missing_run rt fuel ws message data st Hp Ht Hmiss) in Hrun.
      injection Hrun as <- <-. auto. }
  destruct (relay_type_dec type) as [Hrelay|Hother].
  - destruct (relay_run rt fuel ws message data type st Hp Ht Hrelay) as (tr' & Hrun' & Hsends).
    rewrite Hrun' in Hrun. injection Hrun as <- <-.
    destruct (sessionData st !! raw ws) as [s|] eqn:Hs; [|auto].
    destruct (String.eqb (roomId s) ""); [auto|].
    destruct (rooms st !! roomId s) as [room|] eqn:Hroom; [|auto].
    destruct (relay_target type s room data) as [to|] eqn:Hto; [|auto].
    right; right; right; right. split; [reflexivity|].
    exists data, s, room, to.
    repeat split; auto. exact (relay_target_member _ _ _ _ _ Hto).
  - left.
    assert (Hnull : data <> VNull) by (intros ->; discriminate).
    rewrite (unknown_run rt fuel ws message data st Hp Hnull) in Hrun.
    + injection Hrun as <- <-. auto.
    + intros type' Ht'. rewrite Ht in Ht'. injection Ht' as <-. auto.
Qed.

(** ** One event, one room *)

(** X5. An event changes at most one room of the registry, and what it
    sends goes to the connection of the event or to a member -
    broadcaster or registered viewer - of that one room. *)
Theorem event_isolation rt fuel e st st' tr :
  step rt fuel e st = Ret tt st' tr ->
  exists code,
    (forall code', code' <> code -> rooms st' !! code' = rooms st !! code') /\
    (forall to payload,
        In (to, payload) (sends tr) ->
        to = conn e \/
        exists room, rooms st !! code = Some room /\ In to (members room)).
Proof.
  destruct e as [ws message|ws]; simpl.
  - intros Hrun.
    destruct (handleMessage_outcomes _ _ _ _ _ _ _ Hrun)
      as [[-> Hs]|[[-> Hs]|[(j & Hfree & -> & Hs)|[(code & room & Hr & -> & Hs)
         |(-> & data & s & room & to & _ & _ & Hr & Hto & Hs)]]]];
      rewrite Hs.
    + exists "". split; [reflexivity|]. intros to payload [].
    + exists "". split; [reflexivity|]. intros to payload [[= <- _]|[]]. auto.
    + exists (generateRoomId (Math_random rt j)). split.
      * intros code' Hne. simpl. apply lookup_insert_ne. congruence.
      * intros to payload [[= <- _]|[]]. auto.
    + exists code. split.
      * intros code' Hne. simpl. apply lookup_insert_ne. congruence.
      * intros to payload [[= <- _]|Hin]; [auto|].
        destruct (isOpen rt (broadcaster room)); [|destruct Hin].
        destruct Hin as [[= <- _]|[]]. right. exists room. split; [exact Hr|].
        left. reflexivity.
    + exists (roomId s). split; [reflexivity|].
      intros to' payload [[= <- _]|[]]. right. eauto.
  - rewrite handleClose_run.
    destruct (sessionData st !! raw ws) as [s|]; simpl.
    2:{ intros [= <- <-]. exists "". split; [reflexivity|]. intros to payload []. }
    destruct (String.eqb (roomId s) "").
    { intros [= <- <-]. exists "". split; [reflexivity|]. intros to payload []. }
    destruct (rooms st !! roomId s) as [room|] eqn:Hroom.
    2:{ intros [= <- <-]. exists "". split; [reflexivity|]. intros to payload []. }
    destruct (String.eqb (role s) "broadcaster").
    { intros [= <- <-]. exists (roomId s). split.
      - intros code' Hne. simpl. apply lookup_delete_ne. congruence.
      - intros to payload Hin. simpl in Hin. rewrite sends_app in Hin.
        apply in_app_or in Hin. destruct Hin as [Hin|[]].
        apply sends_in_map in Hin. destruct Hin as [Hin _].
        apply filter_In in Hin. destruct Hin as [Hin _].
        right. exists room. split; [exact Hroom|]. right. exact Hin. }
    destruct (id s) as [vid|].
    2:{ intros [= <- <-]. exists "". split; [reflexivity|]. intros to payload []. }
    destruct (negb (String.eqb vid "") && Map_has vid (viewers room)).
    2:{ intros [= <- <-]. exists "". split; [reflexivity|]. intros to payload []. }
    intros [= <- <-]. exists (roomId s). split.
    + intros code' Hne. simpl. apply lookup_insert_ne. congruence.
    + intros to payload Hin. simpl in Hin.
      destruct (isOpen rt (broadcaster room)); [|destruct Hin].
      destruct Hin as [[= <- _]|[]]. right. exists room. split; [exact Hroom|].
      left. reflexivity.
Qed.

Lemma event_isolation_witness :
  exists code,
    (forall code', code' <> code ->
                   rooms Demo.watched !! code' = rooms Demo.lobby !! code') /\
    (forall to payload,
        In (to, payload) [(Demo.bob, msg_joined_room "100000" "x7f2q1abc");
                          (Demo.alice, msg_viewer_connect "x7f2q1abc")] ->
        to = Demo.bob \/
        exists room, rooms Demo.lobby !! code = Some room /\ In to (members room)).
Proof.
  exact (event_isolation Demo.rt 0 (Message Demo.bob (Demo.join_room "100000"))
           Demo.lobby Demo.watched
           [ViewersSet "100000" "x7f2q1abc" Demo.bob;
            SessionSet 2%nat (Demo.viewing "100000" "x7f2q1abc");
            ConsoleLog "Viewer x7f2q1abc joined room 100000";
            Send Demo.bob (msg_joined_room "100000" "x7f2q1abc");
            Send Demo.alice (msg_viewer_connect "x7f2q1abc")]
           eq_refl).
Defined.

(** ** A room goes only when its broadcaster closes *)

(** X6. If an event removes a room from the registry, the event is the
    close of a connection whose session has role broadcaster and names
    that room. *)
Theorem room_removed_only_by_broadcaster_close rt fuel e st st' tr code room :
  rooms st !! code = Some room ->
  step rt fuel e st = Ret tt st' tr ->
  rooms st' !! code = None ->
  exists ws s,
    e = Close ws /\
    sessionData st !! raw ws = Some s /\
    role s = "broadcaster" /\
    roomId s = code.
Proof.
  intros Hroom. destruct e as [ws message|ws]; simpl.
  - intros Hrun Hgone. exfalso.
    destruct (handleMessage_outcomes _ _ _ _ _ _ _ Hrun)
      as [[-> _]|[[-> _]|[(j & Hfree & -> & _)|[(code' & room' & Hr & -> & _)
         |(-> & _)]]]]; simpl in Hgone; try congruence.
    + destruct (decide (generateRoomId (Math_random rt j) = code)) as [E|Hne].
      * rewrite E, lookup_insert_eq in Hgone. discriminate.
      * rewrite lookup_insert_ne in Hgone by exact Hne. congruence.
    + destruct (decide (code' = code)) as [E|Hne].
      * rewrite E, lookup_insert_eq in Hgone. discriminate.
      * rewrite lookup_insert_ne in Hgone by exact Hne. congruence.
  - rewrite handleClose_run.
    destruct (sessionData st !! raw ws) as [s|] eqn:Hs; simpl.
    2:{ intros [= <- _] Hgone. congruence. }
    destruct (String.eqb (roomId s) "").
    { intros [= <- _] Hgone. simpl in Hgone. congruence. }
    destruct (rooms st !! roomId s) as [room'|] eqn:Hroom'.
    2:{ intros [= <- _] Hgone. simpl in Hgone. congruence. }
    destruct (String.eqb_spec (role s) "broadcaster") as [Hrole|_].
    { intros [= <- _] Hgone. simpl in Hgone.
      destruct (decide (roomId s = code)) as [E|Hne].
      - exists ws, s. auto.
      - rewrite lookup_delete_ne in Hgone by exact Hne. congruence. }
    destruct (id s) as [vid|].
    2:{ intros [= <- _] Hgone. simpl in Hgone. congruence. }
    destruct (negb (String.eqb vid "") && Map_has vid (viewers room')).
    2:{ intros [= <- _] Hgone. simpl in Hgone. congruence. }
    intros [= <- _] Hgone. simpl in Hgone.
    destruct (decide (roomId s = code)) as [E|Hne].
    + rewrite E, lookup_insert_eq in Hgone. discriminate.
    + rewrite lookup_insert_ne in Hgone by exact Hne. congruence.
Qed.

Lemma room_removed_only_by_broadcaster_close_witness :
  exists ws s,
    Close Demo.alice = Close ws /\
    sessionData Demo.lobby !! raw ws = Some s /\
    role s = "broadcaster" /\
    roomId s = "100000".
Proof.
  exact (room_removed_only_by_broadcaster_close Demo.rt 0 (Close Demo.alice)
           Demo.lobby initial
           [SessionDelete 1%nat;
            ConsoleLog "Broadcaster left room 100000. Destroying room.";
            RoomsDelete "100000"]
           "100000" {| broadcaster := Demo.alice; viewers := [] |}
           eq_refl eq_refl eq_refl).
Defined.

(** ** Invariants of the reachable states *)

Lemma run_invariant (P : Server -> Prop) (Q : Runtime -> Prop) fuel :
  (forall rt e st st' tr,
      Q rt -> P st -> step rt fuel e st = Ret tt st' tr -> P st') ->
  forall es, Forall (fun re => Q (fst re)) es ->
  forall st st' tr, P st -> run_events fuel es st = Ret tt st' tr -> P st'.
Proof.
  intros Hstep. unfold run_events.
  induction 1 as [|[rt e] es Hq _ IH]; intros st st' tr HP; simpl.
  - intros [= <- _]. exact HP.
  - unfold bind. destruct (step rt fuel e st) as [[] st1 tr1| |] eqn:Hs; try discriminate.
    destruct (for_each es _ st1) as [[] st2 tr2| |] eqn:Hrest; try discriminate.
    intros [= <- _]. apply (IH st1 st2 tr2); [|exact Hrest].
    exact (Hstep rt e st st1 tr1 Hq HP Hs).
Qed.

Lemma Forall_True {A} (l : list A) : Forall (fun _ => True) l.
Proof. induction l; constructor; auto. Qed.

Lemma step_keeps_ownership rt fuel e st st' tr :
  broadcasters_own_rooms st ->
  step rt fuel e st = Ret tt st' tr ->
  broadcasters_own_rooms st'.
Proof.
  intros Hown. destruct e as [ws message|ws]; simpl.
  - intros Hrun.
    destruct (handleMessage_outcomes _ _ _ _ _ _ _ Hrun)
      as [[-> _]|[[-> _]|[(j & Hfree & -> & _)|[(code & room & Hr & -> & _)
         |(-> & _)]]]]; try exact Hown.
    + intros c s. simpl. destruct (decide (raw ws = c)) as [<-|Hne].
      * rewrite lookup_insert_eq. intros [= <-] _. simpl.
        rewrite lookup_insert_eq. eauto.
      * rewrite lookup_insert_ne by exact Hne. intros Hs Hrole.
        destruct (Hown c s Hs Hrole) as (room & Hroom & Hb).
        exists room. split; [|exact Hb].
        rewrite lookup_insert_ne; [exact Hroom|]. congruence.
    + intros c s. simpl. destruct (decide (raw ws = c)) as [<-|Hne].
      * rewrite lookup_insert_eq. intros [= <-]. simpl. discriminate.
      * rewrite lookup_insert_ne by exact Hne. intros Hs Hrole.
        destruct (Hown c s Hs Hrole) as (room0 & Hroom & Hb).
        destruct (decide (code = roomId s)) as [E|Hc].
        -- rewrite <- E, lookup_insert_eq. eexists. split; [reflexivity|]. simpl.
           rewrite <- E, Hr in Hroom. injection Hroom as <-. exact Hb.
        -- rewrite lookup_insert_ne by exact Hc. eauto.
  - rewrite handleClose_run.
    destruct (sessionData st !! raw ws) as [s0|] eqn:Hs0; simpl.
    2:{ intros [= <- _]. exact Hown. }
    assert (Hunbound : broadcasters_own_rooms
                         {| rooms := rooms st;
                            sessionData := delete (raw ws) (sessionData st) |}).
    { intros c s. simpl. intros Hs Hrole.
      apply lookup_delete_Some in Hs. destruct Hs as [_ Hs]. exact (Hown c s Hs Hrole). }
    destruct (String.eqb (roomId s0) ""); [intros [= <- _]; exact Hunbound|].
    destruct (rooms st !! roomId s0) as [room0|] eqn:Hroom0;
      [|intros [= <- _]; exact Hunbound].
    destruct (String.eqb_spec (role s0) "broadcaster") as [Hrole0|_].
    { intros [= <- _] c s. simpl. intros Hs Hrole.
      apply lookup_delete_Some in Hs. destruct Hs as [Hne Hs].
      destruct (Hown c s Hs Hrole) as (room & Hroom & Hb).
      exists room. split; [|exact Hb].
      rewrite lookup_delete_ne; [exact Hroom|].
      intros E. destruct (Hown (raw ws) s0 Hs0 Hrole0) as (room1 & Hroom1 & Hb1).
      rewrite E, Hroom in Hroom1. injection Hroom1 as <-. congruence. }
    destruct (id s0) as [vid|]; [|intros [= <- _]; exact Hunbound].
    destruct (negb (String.eqb vid "") && Map_has vid (viewers room0));
      [|intros [= <- _]; exact Hunbound].
    intros [= <- _] c s. simpl. intros Hs Hrole.
    apply lookup_delete_Some in Hs. destruct Hs as [Hne Hs].
    destruct (Hown c s Hs Hrole) as (room & Hroom & Hb).
    destruct (decide (roomId s0 = roomId s)) as [E|Hc].
    + rewrite <- E, lookup_insert_eq. eexists. split; [reflexivity|]. simpl.
      rewrite <- E, Hroom0 in Hroom. injection Hroom as <-. exact Hb.
    + rewrite lookup_insert_ne by exact Hc. eauto.
Qed.

(** X7. In every state the server reaches from the empty tables, a
    session with role broadcaster names a room that is in the registry
    and whose broadcaster is the socket the session belongs to. *)
Theorem reachable_broadcasters_own_rooms fuel es st tr :
  run_events fuel es initial = Ret tt st tr ->
  broadcasters_own_rooms st.
Proof.
  intros Hrun.
  apply (run_invariant broadcasters_own_rooms (fun _ => True) fuel) with (es := es)
    (st := initial) (tr := tr); [| apply Forall_True | | exact Hrun].
  - intros rt e st0 st1 tr1 _. apply step_keeps_ownership.
  - intros c s Hs. simpl in Hs. rewrite lookup_empty in Hs. discriminate.
Qed.

Lemma reachable_broadcasters_own_rooms_witness :
  broadcasters_own_rooms Demo.rebound.
Proof.
  apply (reachable_broadcasters_own_rooms 1
           [(Demo.rt, Message Demo.alice Demo.create_room);
            (Demo.rt, Message Demo.bob (Demo.join_room "100000"));
            (Demo.rt, Message Demo.bob Demo.create_room)]
           Demo.rebound
           [RoomsSet "100000" {| broadcaster := Demo.alice; viewers := [] |};
            SessionSet 1%nat (Demo.broadcasting "100000");
            ConsoleLog "Room created: 100000";
            Send Demo.alice (msg_room_created "100000");
            ViewersSet "100000" "x7f2q1abc" Demo.bob;
            SessionSet 2%nat (Demo.viewing "100000" "x7f2q1abc");
            ConsoleLog "Viewer x7f2q1abc joined room 100000";
            Send Demo.bob (msg_joined_room "100000" "x7f2q1abc");
            Send Demo.alice (msg_viewer_connect "x7f2q1abc");
            RoomsSet "100109" {| broadcaster := Demo.bob; viewers := [] |};
            SessionSet 2%nat (Demo.broadcasting "100109");
            ConsoleLog "Room created: 100109";
            Send Demo.bob (msg_room_created "100109")]).
  reflexivity.
Defined.

Lemma step_keeps_codes rt fuel e st st' tr :
  in_range rt ->
  codes_well_formed st ->
  step rt fuel e st = Ret tt st' tr ->
  codes_well_formed st'.
Proof.
  intros Hrange [Hrooms Hsess]. destruct e as [ws message|ws]; simpl.
  - intros Hrun.
    destruct (handleMessage_outcomes _ _ _ _ _ _ _ Hrun)
      as [[-> _]|[[-> _]|[(j & Hfree & -> & _)|[(code & room & Hr & -> & _)
         |(-> & _)]]]]; try (split; assumption).
    + assert (H6 : six_digit_code (generateRoomId (Math_random rt j)) = true).
      { apply generateRoomId_six_digits, Hrange. }
      split; simpl.
      * intros code room Hl. apply lookup_insert_Some in Hl.
        destruct Hl as [[<- _]|[_ Hl]]; [exact H6 | exact (Hrooms _ _ Hl)].
      * intros c s Hl. apply lookup_insert_Some in Hl.
        destruct Hl as [[_ <-]|[_ Hl]]; [exact H6 | exact (Hsess _ _ Hl)].
    + split; simpl.
      * intros code' room' Hl. apply lookup_insert_Some in Hl.
        destruct Hl as [[<- _]|[_ Hl]]; [exact (Hrooms _ _ Hr) | exact (Hrooms _ _ Hl)].
      * intros c s Hl. apply lookup_insert_Some in Hl.
        destruct Hl as [[_ <-]|[_ Hl]]; [exact (Hrooms _ _ Hr) | exact (Hsess _ _ Hl)].
  - destruct (handleClose_cases rt ws st) as (st1 & tr1 & -> & Hs1 & Hrooms1).
    intros [= <- _]. split.
    + destruct Hrooms1 as [->|[(code & ->)|(code & room & room' & Hr & ->)]].
      * exact Hrooms.
      * intros code' room' Hl. apply lookup_delete_Some in Hl.
        destruct Hl as [_ Hl]. exact (Hrooms _ _ Hl).
      * intros code' room'' Hl. apply lookup_insert_Some in Hl.
        destruct Hl as [[<- _]|[_ Hl]]; [exact (Hrooms _ _ Hr) | exact (Hrooms _ _ Hl)].
    + rewrite Hs1. intros c s Hl. apply lookup_delete_Some in Hl.
      destruct Hl as [_ Hl]. exact (Hsess _ _ Hl).
Qed.

(** X8. With [Math.random()] in [0, 1), in every state the server
    reaches from the empty tables every room code of the registry and
    the [roomId] of every session is a six-digit code; the guards on a
    falsy [roomId] never fire there. *)
Theorem reachable_codes_well_formed fuel es st tr :
  Forall (fun re => in_range (fst re)) es ->
  run_events fuel es initial = Ret tt st tr ->
  codes_well_formed st.
Proof.
  intros Hrange Hrun.
  apply (run_invariant codes_well_formed in_range fuel) with (es := es)
    (st := initial) (tr := tr); [| exact Hrange | | exact Hrun].
  - intros rt e st0 st1 tr1. apply step_keeps_codes.
  - split; intros k v Hl; simpl in Hl; rewrite lookup_empty in Hl; discriminate.
Qed.

Lemma reachable_codes_well_formed_witness :
  codes_well_formed Demo.watched.
Proof.
  assert (Hrange : in_range Demo.rt).
  { intros k. cbv [Demo.rt Math_random].
    pose proof (Z.mod_pos_bound (Z.of_nat k) 8192 eq_refl).
    change (2 ^ 40) with 1099511627776. change (2 ^ 53) with 9007199254740992. lia. }
  apply (reachable_codes_well_formed 0
           [(Demo.rt, Message Demo.alice Demo.create_room);
            (Demo.rt, Message Demo.bob (Demo.join_room "100000"))]
           Demo.watched
           [RoomsSet "100000" {| broadcaster := Demo.alice; viewers := [] |};
            SessionSet 1%nat (Demo.broadcasting "100000");
            ConsoleLog "Room created: 100000";
            Send Demo.alice (msg_room_created "100000");
            ViewersSet "100000" "x7f2q1abc" Demo.bob;
            SessionSet 2%nat (Demo.viewing "100000" "x7f2q1abc");
            ConsoleLog "Viewer x7f2q1abc joined room 100000";
            Send Demo.bob (msg_joined_room "100000" "x7f2q1abc");
            Send Demo.alice (msg_viewer_connect "x7f2q1abc")]).
  - apply List.Forall_cons; [exact Hrange|].
    apply List.Forall_cons; [exact Hrange|]. apply List.Forall_nil.
  - reflexivity.
Defined.

Lemma length_substring n m s : (String.length (substring n m s) <= m)%nat.
Proof.
  revert n m. induction s as [|c s IH]; intros [|n] [|m]; simpl; try lia.
  - specialize (IH 0%nat m). lia.
  - apply IH.
  - apply IH.
Qed.

Lemma step_keeps_shape rt fuel e st st' tr :
  (forall c s, sessionData st !! c = Some s -> session_shape s) ->
  step rt fuel e st = Ret tt st' tr ->
  forall c s, sessionData st' !! c = Some s -> session_shape s.
Proof.
  intros Hshape. destruct e as [ws message|ws]; simpl.
  - intros Hrun.
    destruct (handleMessage_outcomes _ _ _ _ _ _ _ Hrun)
      as [[-> _]|[[-> _]|[(j & Hfree & -> & _)|[(code & room & Hr & -> & _)
         |(-> & _)]]]]; try exact Hshape.
    + intros c s Hl. simpl in Hl. apply lookup_insert_Some in Hl.
      destruct Hl as [[_ <-]|[_ Hl]]; [|exact (Hshape _ _ Hl)].
      left. auto.
    + intros c s Hl. simpl in Hl. apply lookup_insert_Some in Hl.
      destruct Hl as [[_ <-]|[_ Hl]]; [|exact (Hshape _ _ Hl)].
      right. split; [reflexivity|]. eexists. split; [reflexivity|].
      apply length_substring.
  - destruct (handleClose_cases rt ws st) as (st1 & tr1 & -> & Hs1 & _).
    intros [= <- _] c s Hl. rewrite Hs1 in Hl. apply lookup_delete_Some in Hl.
    destruct Hl as [_ Hl]. exact (Hshape _ _ Hl).
Qed.

(** X9. In every state the server reaches from the empty tables a
    session is a broadcaster's, without [id], or a viewer's, with an
    [id] of at most nine characters. *)
Theorem reachable_session_shape fuel es st tr c s :
  run_events fuel es initial = Ret tt st tr ->
  sessionData st !! c = Some s ->
  session_shape s.
Proof.
  intros Hrun.
  apply (run_invariant (fun st => forall c s, sessionData st !! c = Some s -> session_shape s)
           (fun _ => True) fuel) with (es := es) (st := initial) (tr := tr);
    [| apply Forall_True | | exact Hrun].
  - intros rt e st0 st1 tr1 _. apply step_keeps_shape.
  - intros c' s' Hl. simpl in Hl. rewrite lookup_empty in Hl. discriminate.
Qed.

Lemma reachable_session_shape_witness :
  session_shape (Demo.viewing "100000" "x7f2q1abc").
Proof.
  apply (reachable_session_shape 0
           [(Demo.rt, Message Demo.alice Demo.create_room);
            (Demo.rt, Message Demo.bob (Demo.join_room "100000"))]
           Demo.watched
           [RoomsSet "100000" {| broadcaster := Demo.alice; viewers := [] |};
            SessionSet 1%nat (Demo.broadcasting "100000");
            ConsoleLog "Room created: 100000";
            Send Demo.alice (msg_room_created "100000");
            ViewersSet "100000" "x7f2q1abc" Demo.bob;
            SessionSet 2%nat (Demo.viewing "100000" "x7f2q1abc");
            ConsoleLog "Viewer x7f2q1abc joined room 100000";
            Send Demo.bob (msg_joined_room "100000" "x7f2q1abc");
            Send Demo.alice (msg_viewer_connect "x7f2q1abc")]
           2%nat); reflexivity.
Defined.

(** ** Round trips *)

Lemma room_eta (room : Room) :
  {| broadcaster := broadcaster room; viewers := viewers room |} = room.
Proof. destruct room; reflexivity. Qed.

(** X10. A connection without session that joins a room under an id
    that is non-empty and not yet a key of the room's viewer map, and
    then closes, leaves both tables exactly as they were before the
    join; the close sends [viewer-disconnect] with that id to the
    broadcaster when its socket is open and nothing otherwise. *)
Theorem join_then_close_restores rt rt' fuel ws message data st code room :
  parsed rt message = Some data ->
  asKey (member "type" data) = Some "join-room" ->
  member "roomId" data = Some (VStr code) ->
  rooms st !! code = Some room ->
  code <> "" ->
  sessionData st !! raw ws = None ->
  let viewerId := substring 2 9 (toString36 rt (Math_random rt 0)) in
  viewerId <> "" ->
  Map_get viewerId (viewers room) = None ->
  exists st1 tr1 tr2,
    handleMessage rt fuel ws message st = Ret tt st1 tr1 /\
    handleClose rt' ws st1 = Ret tt st tr2 /\
    sends tr2 = (if readyState rt' (raw (broadcaster room)) =? 1
                 then [(broadcaster room, msg_viewer_disconnect viewerId)] else []).
Proof.
  intros Hp Ht Hc Hr Hcode Hs viewerId Hid Hfresh.
  pose proof (join_found_run rt fuel ws message data st code room Hp Ht Hc Hr) as Hjoin.
  simpl in Hjoin. fold viewerId in Hjoin.
  apply String.eqb_neq in Hcode, Hid.
  eexists _, _,
    ([SessionDelete (raw ws); ViewersDelete code viewerId;
      ConsoleLog ("Viewer " ++ viewerId ++ " left room " ++ code)]
     ++ (if readyState rt' (raw (broadcaster room)) =? 1
         then [Send (broadcaster room) (msg_viewer_disconnect viewerId)] else []))%list.
  split; [exact Hjoin|].
  rewrite handleClose_run. simpl. rewrite !lookup_insert_eq. simpl.
  rewrite Hcode, Hid. unfold Map_has. rewrite Map_get_set_eq. simpl.
  rewrite (Map_delete_set_fresh _ _ _ Hfresh), room_eta.
  rewrite insert_insert_eq, (insert_id _ _ _ Hr).
  rewrite delete_insert_eq, (delete_id _ _ Hs).
  unfold isOpen, OPEN. simpl.
  destruct st as [rs ss]. simpl.
  destruct (readyState rt' (raw (broadcaster room)) =? 1); split; reflexivity.
Qed.

Lemma join_then_close_restores_witness :
  exists tr1 tr2,
    handleMessage Demo.rt 0 Demo.bob (Demo.join_room "100000") Demo.lobby
    = Ret tt Demo.watched tr1 /\
    handleClose Demo.rt Demo.bob Demo.watched = Ret tt Demo.lobby tr2 /\
    sends tr2 = [(Demo.alice, msg_viewer_disconnect "x7f2q1abc")].
Proof.
  destruct (join_then_close_restores Demo.rt Demo.rt 0 Demo.bob
              (Demo.join_room "100000") (Demo.join_room "100000") Demo.lobby "100000"
              {| broadcaster := Demo.alice; viewers := [] |})
    as (st1 & tr1 & tr2 & Hjoin & Hclose & Hsends);
    try reflexivity; try discriminate.
  assert (Hw : handleMessage Demo.rt 0 Demo.bob (Demo.join_room "100000") Demo.lobby
               = Ret tt Demo.watched
                   [ViewersSet "100000" "x7f2q1abc" Demo.bob;
                    SessionSet 2%nat (Demo.viewing "100000" "x7f2q1abc");
                    ConsoleLog "Viewer x7f2q1abc joined room 100000";
                    Send Demo.bob (msg_joined_room "100000" "x7f2q1abc");
                    Send Demo.alice (msg_viewer_connect "x7f2q1abc")])
    by reflexivity.
  assert (E : st1 = Demo.watched) by congruence.
  subst st1. exists tr1, tr2. split; [exact Hjoin|]. split; [exact Hclose | exact Hsends].
Defined.

(** X11. With [Math.random()] in [0, 1), a connection without session
    that creates a room and then closes leaves both tables exactly as
    they were before; the close sends nothing. *)
Theorem create_then_close_restores rt rt' fuel ws message data st st1 tr1 :
  in_range rt ->
  parsed rt message = Some data ->
  asKey (member "type" data) = Some "create-room" ->
  sessionData st !! raw ws = None ->
  handleMessage rt fuel ws message st = Ret tt st1 tr1 ->
  exists tr2, handleClose rt' ws st1 = Ret tt st tr2 /\ sends tr2 = [].
Proof.
  intros Hrange Hp Ht Hs Hrun.
  destruct (create_effect _ _ _ _ _ _ _ _ Hp Ht Hrun) as (j & Hfree & -> & _).
  pose proof (generateRoomId_nonempty _ (Hrange j)) as Hcode.
  apply String.eqb_neq in Hcode.
  rewrite handleClose_run. simpl. rewrite !lookup_insert_eq. simpl. rewrite Hcode.
  rewrite delete_insert_eq, (delete_id _ _ Hfree).
  rewrite delete_insert_eq, (delete_id _ _ Hs).
  destruct st as [rs ss]. simpl. eexists. split; reflexivity.
Qed.

Lemma create_then_close_restores_witness :
  exists st1 tr1 tr2,
    handleMessage Demo.rt 1 Demo.dave Demo.create_room Demo.watched = Ret tt st1 tr1 /\
    handleClose Demo.rt Demo.dave st1 = Ret tt Demo.watched tr2 /\
    sends tr2 = [].
Proof.
  assert (Hrange : in_range Demo.rt).
  { intros k. cbv [Demo.rt Math_random].
    pose proof (Z.mod_pos_bound (Z.of_nat k) 8192 eq_refl).
    change (2 ^ 40) with 1099511627776. change (2 ^ 53) with 9007199254740992. lia. }
  assert (Hrun : handleMessage Demo.rt 1 Demo.dave Demo.create_room Demo.watched
                 = Ret tt
                     {| rooms := <["100109" := {| broadcaster := Demo.dave; viewers := [] |}]>
                                   (rooms Demo.watched);
                        sessionData := <[4%nat := Demo.broadcasting "100109"]>
                                         (sessionData Demo.watched) |}
                     [RoomsSet "100109" {| broadcaster := Demo.dave; viewers := [] |};
                      SessionSet 4%nat (Demo.broadcasting "100109");
                      ConsoleLog "Room created: 100109";
                      Send Demo.dave (msg_room_created "100109")])
    by reflexivity.
  destruct (create_then_close_restores Demo.rt Demo.rt 1 Demo.dave Demo.create_room
              Demo.create_room Demo.watched _ _ Hrange eq_refl eq_refl eq_refl Hrun)
    as (tr2 & Hclose & Hsends).
  eexists _, _, tr2. split; [exact Hrun|]. split; [exact Hclose | exact Hsends].
Defined.

(** ** Closing again, and closing late *)

(** X12. A close always returns, and a second close of the same
    connection does nothing at all: the session is gone after the
    first. *)
Theorem close_twice rt rt' ws st :
  exists st' tr,
    handleClose rt ws st = Ret tt st' tr /\
    handleClose rt' ws st' = Ret tt st' [].
Proof.
  destruct (handleClose_cases rt ws st) as (st' & tr & Hrun & Hsess & _).
  exists st', tr. split; [exact Hrun|].
  rewrite handleClose_run, Hsess, lookup_delete_eq. reflexivity.
Qed.

(** X13. Closing a connection whose session names a room that is no
    longer in the registry - a viewer whose broadcaster left first -
    deletes the session and does nothing else: the registry stays and
    nothing is sent. *)
Theorem close_after_room_gone rt ws st s :
  sessionData st !! raw ws = Some s ->
  rooms st !! roomId s = None ->
  handleClose rt ws st
  = Ret tt {| rooms := rooms st; sessionData := delete (raw ws) (sessionData st) |}
      [SessionDelete (raw ws)].
Proof.
  intros Hs Hroom. rewrite handleClose_run, Hs. simpl. rewrite Hroom.
  destruct (String.eqb (roomId s) ""); reflexivity.
Qed.

Lemma close_after_room_gone_witness :
  exists st1 tr1,
    handleClose Demo.rt Demo.alice Demo.watched = Ret tt st1 tr1 /\
    handleClose Demo.rt Demo.bob st1
    = Ret tt {| rooms := rooms st1; sessionData := delete 2%nat (sessionData st1) |}
        [SessionDelete 2%nat].
Proof.
  eexists _, _. split; [reflexivity|].
  apply (close_after_room_gone Demo.rt Demo.bob _ (Demo.viewing "100000" "x7f2q1abc"));
    reflexivity.
Defined.

(** X20. Closing a connection whose session is not a broadcaster's
    and whose id is missing, empty, or no key of the viewer map of its
    room deletes the session and does nothing else: the entry that
    connection may still have in the viewer map stays, and the
    broadcaster is told nothing. *)
Theorem viewer_close_skips_unregistered rt ws st s room :
  sessionData st !! raw ws = Some s ->
  role s <> "broadcaster" ->
  rooms st !! roomId s = Some room ->
  match id s with
  | Some A => A = "" \/ Map_has A (viewers room) = false
  | None => True
  end ->
  handleClose rt ws st
  = Ret tt {| rooms := rooms st; sessionData := delete (raw ws) (sessionData st) |}
        [SessionDelete (raw ws)].
Proof.
  intros Hs Hrole Hroom Hid. rewrite handleClose_run, Hs. cbv zeta.
  destruct (String.eqb (roomId s) ""); [reflexivity|].
  rewrite Hroom.
  destruct (String.eqb_spec (role s) "broadcaster") as [E|_]; [contradiction|].
  destruct (id s) as [A|]; [|reflexivity].
  destruct Hid as [->|Hhas]; [reflexivity|].
  rewrite Hhas, andb_false_r. reflexivity.
Qed.

Lemma viewer_close_skips_unregistered_witness :
  handleClose Demo.rt Demo.bob Demo.nameless
  = Ret tt {| rooms := rooms Demo.nameless;
              sessionData := delete 2%nat (sessionData Demo.nameless) |}
        [SessionDelete 2%nat].
Proof.
  apply (viewer_close_skips_unregistered Demo.rt Demo.bob Demo.nameless
           (Demo.viewing "100000" "")
           {| broadcaster := Demo.alice; viewers := [("", Demo.bob)] |}).
  - reflexivity.
  - discriminate.
  - reflexivity.
  - left. reflexivity.
Defined.

(** ** The draws of [create-room] *)

Lemma retry_first rt st fuel :
  forall k code c st' tr,
    retry rt fuel k code st = Ret c st' tr ->
    (rooms st !! code = None /\ c = code) \/
    (rooms st !! code <> None /\
     exists j, (k <= j < k + fuel)%nat /\
               c = generateRoomId (Math_random rt j) /\
               forall i, (k <= i < j)%nat ->
                         rooms st !! generateRoomId (Math_random rt i) <> None).
Proof.
  induction fuel as [|fuel IH]; intros k code c st' tr; simpl; unfold bind, rooms_has.
  - destruct (rooms st !! code) eqn:Hc; simpl; [discriminate|].
    intros [= <- _ _]. auto.
  - destruct (rooms st !! code) eqn:Hc; simpl.
    2:{ intros [= <- _ _]. auto. }
    destruct (retry rt fuel (S k) (generateRoomId (Math_random rt k)) st)
      as [c1 st1 tr1| |] eqn:Hr; try discriminate.
    intros [= <- _ _]. right. split; [discriminate|].
    destruct (IH _ _ _ _ _ Hr) as [[Hfree ->]|(Htaken & j & Hj & -> & Hbefore)].
    + exists k. split; [lia|]. split; [reflexivity|]. intros i Hi. lia.
    + exists j. split; [lia|]. split; [reflexivity|]. intros i Hi.
      destruct (decide (i = k)) as [->|Hne]; [exact Htaken|].
      apply Hbefore. lia.
Qed.

(** X14. The code sent in [room-created] is the first of the draws that
    is not in use: every earlier draw of this request names an active
    room, and no more than [fuel] retries were made. *)
Theorem create_room_takes_first_unused_draw rt fuel ws message data st st' tr :
  parsed rt message = Some data ->
  asKey (member "type" data) = Some "create-room" ->
  handleMessage rt fuel ws message st = Ret tt st' tr ->
  exists j,
    (j <= fuel)%nat /\
    sends tr = [(ws, msg_room_created (generateRoomId (Math_random rt j)))] /\
    rooms st !! generateRoomId (Math_random rt j) = None /\
    forall i, (i < j)%nat -> rooms st !! generateRoomId (Math_random rt i) <> None.
Proof.
  intros Hp Ht. rewrite (create_run _ _ _ _ _ _ Hp Ht).
  unfold try_catch, caseCreateRoom, bind.
  pose proof (retry_sound rt st fuel 1 (generateRoomId (Math_random rt 0))) as Hs.
  destruct (retry rt fuel 1 _ st) as [code st1 tr1| |] eqn:Hr; [|contradiction|discriminate].
  destruct Hs as (-> & -> & Hfree & _). simpl. intros [= <- <-].
  destruct (retry_first _ _ _ _ _ _ _ _ Hr) as [[_ ->]|(Htaken & j & Hj & -> & Hbefore)].
  - exists 0%nat. split; [lia|]. split; [reflexivity|]. split; [exact Hfree|].
    intros i Hi. lia.
  - exists j. split; [lia|]. split; [reflexivity|]. split; [exact Hfree|].
    intros i Hi. destruct i as [|i]; [exact Htaken|]. apply Hbefore. lia.
Qed.

Lemma create_room_takes_first_unused_draw_witness :
  exists j,
    (j <= 3)%nat /\
    sends [RoomsSet "100109" {| broadcaster := Demo.bob; viewers := [] |};
           SessionSet 2%nat (Demo.broadcasting "100109");
           ConsoleLog "Room created: 100109";
           Send Demo.bob (msg_room_created "100109")]
    = [(Demo.bob, msg_room_created (generateRoomId (Math_random Demo.rt j)))] /\
    rooms Demo.watched !! generateRoomId (Math_random Demo.rt j) = None /\
    forall i, (i < j)%nat ->
              rooms Demo.watched !! generateRoomId (Math_random Demo.rt i) <> None.
Proof.
  exact (create_room_takes_first_unused_draw Demo.rt 3 Demo.bob Demo.create_room
           Demo.create_room Demo.watched Demo.rebound _ eq_refl eq_refl eq_refl).
Defined.

(** X15. Every code from 100000 to 999999 can be drawn: for each there
    is a value of [Math.random()] in [0, 1) that [generateRoomId]
    renders as that code. *)
Theorem every_code_is_drawable n :
  100000 <= n <= 999999 ->
  exists r, 0 <= r < 2 ^ 53 /\ generateRoomId r = pretty n.
Proof.
  intros Hn. destruct (roomFloat_onto n Hn) as (r & Hr & Hfloor).
  exists r. split; [lia|].
  unfold generateRoomId. rewrite Hfloor. reflexivity.
Qed.

Lemma every_code_is_drawable_witness :
  exists r, 0 <= r < 2 ^ 53 /\ generateRoomId r = "482913".
Proof.
  apply (every_code_is_drawable 482913). lia.
Defined.

(** ** The uptime clock *)

Lemma padStart_two_digits_nat (k : nat) :
  (k < 100)%nat -> padStart 2 "0" (pretty (Z.of_nat k)) = two_digits (Z.of_nat k).
Proof.
  intros Hk.
  do 100 (destruct k as [|k]; [vm_compute; reflexivity|]).
  lia.
Qed.

Lemma padStart_two_digits n :
  0 <= n < 100 -> padStart 2 "0" (pretty n) = two_digits n.
Proof.
  intros Hn. rewrite <- (Z2Nat.id n) by lia.
  apply padStart_two_digits_nat. lia.
Qed.

Lemma two_digits_inj a b :
  0 <= a < 100 -> 0 <= b < 100 -> two_digits a = two_digits b -> a = b.
Proof.
  intros Ha Hb. unfold two_digits. intros [= H1 H0].
  apply pretty_N_char_inj in H1, H0;
    try (apply N2Z.inj_lt; rewrite Z2N.id; simpl; Z.div_mod_to_equations; lia).
  apply Z2N.inj in H1, H0; Z.div_mod_to_equations; lia.
Qed.

Lemma uptime_fields diff :
  0 <= diff < 360000 ->
  uptimeText diff
  = two_digits (diff `div` 3600) ++ ":" ++ two_digits ((diff `mod` 3600) `div` 60)
    ++ ":" ++ two_digits (diff `mod` 60).
Proof.
  intros Hd. unfold uptimeText.
  rewrite !Z.rem_mod_nonneg by lia.
  rewrite !padStart_two_digits by (Z.div_mod_to_equations; lia).
  reflexivity.
Qed.

(** X16. For the first hundred hours the uptime text is eight
    characters, [hh:mm:ss], and two different numbers of elapsed
    seconds never show the same text. *)
Theorem uptime_clock diff :
  0 <= diff < 360000 ->
  String.length (uptimeText diff) = 8%nat /\
  String.get 2 (uptimeText diff) = Some ":"%char /\
  String.get 5 (uptimeText diff) = Some ":"%char /\
  forall diff', 0 <= diff' < 360000 -> uptimeText diff' = uptimeText diff -> diff' = diff.
Proof.
  intros Hd. rewrite (uptime_fields diff Hd).
  split; [reflexivity|]. split; [reflexivity|]. split; [reflexivity|].
  intros diff' Hd'. rewrite (uptime_fields diff' Hd').
  unfold two_digits. simpl. intros [= H1 H2 H3 H4 H5 H6].
  assert (Hh : diff' `div` 3600 = diff `div` 3600).
  { apply two_digits_inj; [Z.div_mod_to_equations; lia ..|].
    unfold two_digits. congruence. }
  assert (Hm : (diff' `mod` 3600) `div` 60 = (diff `mod` 3600) `div` 60).
  { apply two_digits_inj; [Z.div_mod_to_equations; lia ..|].
    unfold two_digits. congruence. }
  assert (Hs : diff' `mod` 60 = diff `mod` 60).
  { apply two_digits_inj; [Z.div_mod_to_equations; lia ..|].
    unfold two_digits. congruence. }
  revert Hh Hm Hs. clear. Z.div_mod_to_equations. lia.
Qed.

Lemma uptime_clock_witness :
  uptimeText 3725 = "01:02:05" /\ String.length (uptimeText 3725) = 8%nat.
Proof.
  split; [reflexivity|].
  apply (uptime_clock 3725). lia.
Defined.

(** ** Notifications and the state of the socket *)

(** X17. What a close sends - [room-closed] to the viewers,
    [viewer-disconnect] to the broadcaster - goes only to sockets whose
    [readyState] is 1 while the handler runs. *)
Theorem close_notifies_open_sockets_only rt ws st st' tr to payload :
  handleClose rt ws st = Ret tt st' tr ->
  In (to, payload) (sends tr) ->
  readyState rt (raw to) = 1.
Proof.
  rewrite handleClose_run.
  destruct (sessionData st !! raw ws) as [s|]; simpl; [|intros [= _ <-] []].
  destruct (String.eqb (roomId s) ""); [intros [= _ <-] []|].
  destruct (rooms st !! roomId s) as [room|]; [|intros [= _ <-] []].
  destruct (String.eqb (role s) "broadcaster").
  { intros [= _ <-] Hin. simpl in Hin. rewrite sends_app in Hin.
    apply in_app_or in Hin. destruct Hin as [Hin|[]].
    apply sends_in_map in Hin. destruct Hin as [Hin _].
    apply filter_In in Hin. destruct Hin as [_ Hopen].
    unfold isOpen, OPEN in Hopen. apply Z.eqb_eq. exact Hopen. }
  destruct (id s) as [vid|]; [|intros [= _ <-] []].
  destruct (negb (String.eqb vid "") && Map_has vid (viewers room));
    [|intros [= _ <-] []].
  intros [= _ <-] Hin. simpl in Hin.
  destruct (isOpen rt (broadcaster room)) eqn:Hopen; [|destruct Hin].
  destruct Hin as [[= <- _]|[]].
  unfold isOpen, OPEN in Hopen. apply Z.eqb_eq. exact Hopen.
Qed.

Lemma close_notifies_open_sockets_only_witness :
  readyState Demo.rt (raw Demo.carol) = 1.
Proof.
  apply (close_notifies_open_sockets_only Demo.rt Demo.alice Demo.stage
           {| rooms := ∅; sessionData := delete 1%nat (sessionData Demo.stage) |}
           [SessionDelete 1%nat;
            ConsoleLog "Broadcaster left room 482913. Destroying room.";
            Send Demo.bob msg_room_closed; Send Demo.carol msg_room_closed;
            RoomsDelete "482913"]
           Demo.carol msg_room_closed).
  - reflexivity.
  - simpl. right. left. reflexivity.
Defined.

(** X18. An [offer], [answer] or [candidate] from a connection without
    session is dropped: no table changes and nothing is sent; the
    [offer] case alone logs a warning. *)
Theorem unbound_relay_dropped rt fuel ws message data type st :
  parsed rt message = Some data ->
  asKey (member "type" data) = Some type ->
  relay_type type ->
  sessionData st !! raw ws = None ->
  handleMessage rt fuel ws message st
  = Ret tt st (if String.eqb type "offer"
               then [ConsoleWarn "Offer rejected: No session data"] else []).
Proof.
  intros Hp Ht Hrelay Hs. unfold handleMessage, try_catch. rewrite Hp.
  rewrite (dispatch_typed _ _ _ _ _ Ht).
  destruct Hrelay as [->|[->| ->]]; simpl;
    unfold caseOffer, caseAnswer, caseCandidate, bind, sessionData_get;
    rewrite Hs; reflexivity.
Qed.

Lemma unbound_relay_dropped_witness :
  handleMessage Demo.rt 0 Demo.dave (Demo.offer_to "bbbbbbbbb") Demo.stage
  = Ret tt Demo.stage [ConsoleWarn "Offer rejected: No session data"].
Proof.
  apply (unbound_relay_dropped Demo.rt 0 Demo.dave _ (Demo.offer_to "bbbbbbbbb") "offer");
    try reflexivity.
  left. reflexivity.
Defined.
